(** * Receipt processor: validation, storage and the points rules

    A shallow embedding of [main.py].  Python values are modelled as follows.

    - [str] is a Rocq [string]; each character stands for the Unicode code
      point of the same number, so the model covers the strings whose code
      points are below 256.  [str.isalnum], [str.isspace] and the digit class
      of [re] are written out for that range.
    - [float] is an IEEE binary64 value.  Every finite binary64 number is an
      integer multiple of 2^-1074, and [Fin k] is the number [k * 2^-1074].
      The sign of a zero is dropped: no operation of the program tells -0.0
      from 0.0.  Conversions and arithmetic round to nearest, ties to even.
    - an exception is a value of [exn]; code that may raise lives in the
      [result] monad.
    - [receipts_db], the module-level dict, is a [gmap string Receipt] that
      the two request handlers receive and return.
    - a [Receipt] payload, the model instance built from it and the dict
      stored by [receipt.dict()] share one record type: the validators return
      their argument unchanged. *)

From Stdlib Require Import ZArith Ascii String List Bool Lia Permutation.
From stdpp Require Import gmap strings.
Import ListNotations.

Local Open Scope string_scope.
Local Open Scope Z_scope.

(** ** Exceptions *)

Inductive exn : Type :=
| ValueError (msg : string)
| OverflowError (msg : string)
| ZeroDivisionError (msg : string)
| ValidationError
| HTTPException (status_code : Z) (detail : string).

Inductive result (A : Type) : Type :=
| Ok (a : A)
| Raise (e : exn).

Arguments Ok {A} a.
Arguments Raise {A} e.

Definition bind {A B : Type} (c : result A) (k : A -> result B) : result B :=
  match c with
  | Ok a => k a
  | Raise e => Raise e
  end.

Notation "'do' x <- c ;; k" := (bind c (fun x => k))
  (at level 10, x name, c at level 99, k at level 200).
Notation "c ;; k" := (bind c (fun _ => k))
  (at level 100, k at level 200, right associativity).

(** [try: c except ValueError: raise ValueError(msg)] *)
Definition except_ValueError {A : Type} (c : result A) (msg : string) : result A :=
  match c with
  | Raise (ValueError _) => Raise (ValueError msg)
  | other => other
  end.

(** The status the framework answers with when a handler, or the parsing of
    its body into the declared model, raises: a model validation failure is
    answered 422, an [HTTPException] with its own status code, anything else
    500. *)
Definition status_of (e : exn) : Z :=
  match e with
  | ValidationError => 422
  | HTTPException status_code _ => status_code
  | ValueError _ | OverflowError _ | ZeroDivisionError _ => 500
  end.

Definition client_error (e : exn) : bool :=
  (400 <=? status_of e) && (status_of e <? 500).

(** ** Characters and strings *)

Definition ord (c : ascii) : Z := Z.of_N (N_of_ascii c).

Definition chars (s : string) : list ascii := list_ascii_of_string s.

Definition between (lo hi n : Z) : bool := (lo <=? n) && (n <=? hi).

Definition is_digit (c : ascii) : bool := between 48 57 (ord c).

(** [c.isalnum()] for a code point below 256: the ASCII letters and digits,
    and the Latin-1 letters, superscript digits and vulgar fractions. *)
Definition isalnum (c : ascii) : bool :=
  let n := ord c in
  between 48 57 n || between 65 90 n || between 97 122 n
  || (n =? 170) || (n =? 178) || (n =? 179) || (n =? 181) || (n =? 185)
  || (n =? 186) || between 188 190 n || between 192 214 n
  || between 216 246 n || between 248 255 n.

(** [c.isspace()] for a code point below 256. *)
Definition isspace (c : ascii) : bool :=
  let n := ord c in
  between 9 13 n || between 28 32 n || (n =? 133) || (n =? 160).

(** [c in t] for a one-character [c]. *)
Definition char_in (c : ascii) (t : string) : bool :=
  existsb (Ascii.eqb c) (chars t).

(** [len(s)] *)
Definition len (s : string) : Z := Z.of_nat (String.length s).

(** [not s] for a string. *)
Definition is_empty (s : string) : bool :=
  match s with
  | EmptyString => true
  | String _ _ => false
  end.

Fixpoint lstrip (s : list ascii) : list ascii :=
  match s with
  | c :: r => if isspace c then lstrip r else s
  | [] => []
  end.

(** [s.strip()] *)
Definition strip (s : string) : string :=
  string_of_list_ascii (rev (lstrip (rev (lstrip (chars s))))).

(** [s.split(sep)] for a one-character separator: never an empty list. *)
Fixpoint split_chars (sep : ascii) (s : list ascii) : list (list ascii) :=
  match s with
  | [] => [[]]
  | c :: r =>
      if Ascii.eqb c sep then [] :: split_chars sep r
      else match split_chars sep r with
           | w :: ws => (c :: w) :: ws
           | [] => [[c]]
           end
  end.

Definition split (s : string) (sep : ascii) : list string :=
  map string_of_list_ascii (split_chars sep (chars s)).

(** [l[-1]] on the result of a split. *)
Definition last_item (l : list string) : string := List.last l "".

(** The value of a run of decimal digits, most significant first. *)
Definition digits_value (ds : list ascii) : Z :=
  fold_left (fun acc d => 10 * acc + (ord d - 48)) ds 0.

(** ** binary64 floats *)

Inductive float : Type :=
| NaN
| Inf (neg : bool)
| Fin (k : Z).

(** 1.0 and 2^1024, counted in units of 2^-1074. *)
Definition one_units : Z := 2 ^ 1074.
Definition overflow_units : Z := 2 ^ 2098.

(** The integer nearest to [n / d], ties to the even one ([0 <= n], [0 < d]). *)
Definition round_half_even (n d : Z) : Z :=
  let q := n / d in
  let r := n mod d in
  if 2 * r <? d then q
  else if d <? 2 * r then q + 1
  else if Z.even q then q else q + 1.

(** The binary64 number nearest to [n / d] units ([0 <= n], [0 < d]): below
    2^53 units the numbers are one unit apart; above, a 53-bit significand is
    kept, and a result of 2^1024 or more is an infinity. *)
Definition round_units (n d : Z) : float :=
  let s := Z.max 0 (Z.log2 (n / d) - 52) in
  let k := round_half_even n (d * 2 ^ s) * 2 ^ s in
  if overflow_units <=? k then Inf false else Fin k.

Definition round_signed (neg : bool) (n d : Z) : float :=
  match round_units n d with
  | Fin k => Fin (if neg then - k else k)
  | Inf _ => Inf neg
  | NaN => NaN
  end.

(** The correctly rounded value of the decimal [(-1)^neg * m * 10^e], which
    is what [float] of a numeral and a float literal give. *)
Definition float_of_decimal (neg : bool) (m e : Z) : float :=
  if 0 <=? e then round_signed neg (m * 10 ^ e * one_units) 1
  else round_signed neg (m * one_units) (10 ^ (- e)).

Definition float_0 : float := Fin 0.
Definition float_0_2 : float := float_of_decimal false 2 (-1).
Definition float_0_25 : float := float_of_decimal false 25 (-2).

(** [x < y] *)
Definition flt (x y : float) : bool :=
  match x, y with
  | NaN, _ | _, NaN => false
  | Inf nx, Inf ny => nx && negb ny
  | Inf nx, Fin _ => nx
  | Fin _, Inf ny => negb ny
  | Fin a, Fin b => a <? b
  end.

(** [x == y] *)
Definition feq (x y : float) : bool :=
  match x, y with
  | NaN, _ | _, NaN => false
  | Inf nx, Inf ny => Bool.eqb nx ny
  | Fin a, Fin b => a =? b
  | _, _ => false
  end.

(** [x * y] *)
Definition fmul (x y : float) : float :=
  match x, y with
  | NaN, _ | _, NaN => NaN
  | Inf nx, Inf ny => Inf (xorb nx ny)
  | Inf nx, Fin b => if b =? 0 then NaN else Inf (xorb nx (b <? 0))
  | Fin a, Inf ny => if a =? 0 then NaN else Inf (xorb (a <? 0) ny)
  | Fin a, Fin b =>
      round_signed (xorb (a <? 0) (b <? 0)) (Z.abs a * Z.abs b) one_units
  end.

(** [x + y] *)
Definition fadd (x y : float) : float :=
  match x, y with
  | NaN, _ | _, NaN => NaN
  | Inf nx, Inf ny => if Bool.eqb nx ny then Inf nx else NaN
  | Inf nx, Fin _ => Inf nx
  | Fin _, Inf ny => Inf ny
  | Fin a, Fin b => round_signed (a + b <? 0) (Z.abs (a + b)) 1
  end.

(** C's [fmod]: exact, with the sign of the dividend. *)
Definition fmod (x y : float) : float :=
  match x, y with
  | NaN, _ | _, NaN => NaN
  | Inf _, _ => NaN
  | Fin a, Inf _ => Fin a
  | Fin a, Fin b => if b =? 0 then NaN else Fin (Z.rem a b)
  end.

(** [v % w] on floats: the remainder takes the sign of the divisor. *)
Definition float_rem (v w : float) : result float :=
  if feq w float_0 then Raise (ZeroDivisionError "float modulo")
  else
    let mod_ := fmod v w in
    if negb (feq mod_ float_0) then
      if negb (Bool.eqb (flt w float_0) (flt mod_ float_0))
      then Ok (fadd mod_ w) else Ok mod_
    else Ok float_0.

(** [x.is_integer()] *)
Definition is_integer (x : float) : bool :=
  match x with
  | Fin k => k mod one_units =? 0
  | _ => false
  end.

(** [math.ceil(x)] *)
Definition ceil (x : float) : result Z :=
  match x with
  | NaN => Raise (ValueError "cannot convert float NaN to integer")
  | Inf _ => Raise (OverflowError "cannot convert float infinity to integer")
  | Fin k => Ok (- ((- k) / one_units))
  end.

(** ** [float(s)] for a string

    The steps of CPython's [PyFloat_FromString]: non-ASCII spaces become
    blanks, underscores between digits are dropped, blanks around the text
    are stripped, and the rest must be a decimal numeral, an infinity or a
    nan.  The exponent is not clamped, which only matters for strings of
    more than a billion characters. *)

Definition Py_ISSPACE (c : ascii) : bool :=
  between 9 13 (ord c) || (ord c =? 32).

(** Below 256 no character other than the ASCII digits is a decimal digit,
    so a character from 127 on is a space or is replaced by a question mark,
    which ends the text. *)
Fixpoint transform_decimal_and_space (s : list ascii) : list ascii :=
  match s with
  | [] => []
  | c :: r =>
      if ord c <? 127 then c :: transform_decimal_and_space r
      else if isspace c then " "%char :: transform_decimal_and_space r
      else ["?"%char]
  end.

Definition to_ascii_text (s : list ascii) : list ascii :=
  if forallb (fun c => ord c <? 128) s then s
  else transform_decimal_and_space s.

Definition is_underscore (c : ascii) : bool := Ascii.eqb c "_".

(** An underscore must stand between two digits. *)
Fixpoint drop_underscores (prev : ascii) (s : list ascii) : option (list ascii) :=
  match s with
  | [] => if is_underscore prev then None else Some []
  | c :: r =>
      if is_underscore c then
        if is_digit prev then drop_underscores c r else None
      else if is_underscore prev && negb (is_digit c) then None
      else option_map (cons c) (drop_underscores c r)
  end.

Definition without_underscores (s : list ascii) : option (list ascii) :=
  if existsb is_underscore s then drop_underscores zero s else Some s.

Fixpoint lstrip_c (s : list ascii) : list ascii :=
  match s with
  | c :: r => if Py_ISSPACE c then lstrip_c r else s
  | [] => []
  end.

Fixpoint span_digits (s : list ascii) : list ascii * list ascii :=
  match s with
  | c :: r =>
      if is_digit c then let (ds, rest) := span_digits r in (c :: ds, rest)
      else ([], s)
  | [] => ([], [])
  end.

Definition parse_sign (s : list ascii) : bool * list ascii :=
  match s with
  | c :: r =>
      if Ascii.eqb c "-" then (true, r)
      else if Ascii.eqb c "+" then (false, r)
      else (false, s)
  | [] => (false, [])
  end.

(** The exponent part: consumed only when it has a digit. *)
Definition parse_exponent (s : list ascii) : Z * list ascii :=
  match s with
  | c :: r =>
      if Ascii.eqb c "e" || Ascii.eqb c "E" then
        let (eneg, r1) := parse_sign r in
        let (ed, r2) := span_digits r1 in
        match ed with
        | [] => (0, s)
        | _ => ((if eneg then - digits_value ed else digits_value ed), r2)
        end
      else (0, s)
  | [] => (0, [])
  end.

(** [strtod]: the number read and the text left, or [None] when the text
    does not start with a numeral. *)
Definition dg_strtod (s : list ascii) : option (float * list ascii) :=
  let (neg, s1) := parse_sign s in
  let (ip, s2) := span_digits s1 in
  let (fp, s3) :=
    match s2 with
    | c :: r => if Ascii.eqb c "." then span_digits r else ([], s2)
    | [] => ([], [])
    end in
  match (ip ++ fp)%list with
  | [] => None
  | ds =>
      let (e, s4) := parse_exponent s3 in
      Some (float_of_decimal neg (digits_value ds) (e - Z.of_nat (length fp)), s4)
  end.

Definition Py_TOLOWER (c : ascii) : ascii :=
  if between 65 90 (ord c) then ascii_of_N (Z.to_N (ord c + 32)) else c.

(** [t] is a prefix of [s] up to the case of ASCII letters: the text left. *)
Fixpoint case_insensitive_match (s t : list ascii) : option (list ascii) :=
  match t with
  | [] => Some s
  | b :: t' =>
      match s with
      | a :: s' =>
          if Ascii.eqb (Py_TOLOWER a) b then case_insensitive_match s' t' else None
      | [] => None
      end
  end.

Definition parse_inf_or_nan (s : list ascii) : option (float * list ascii) :=
  let (neg, s1) := parse_sign s in
  match case_insensitive_match s1 (chars "inf") with
  | Some s2 =>
      match case_insensitive_match s2 (chars "inity") with
      | Some s3 => Some (Inf neg, s3)
      | None => Some (Inf neg, s2)
      end
  | None =>
      match case_insensitive_match s1 (chars "nan") with
      | Some s2 => Some (NaN, s2)
      | None => None
      end
  end.

Definition string_to_double (s : list ascii) : option (float * list ascii) :=
  match dg_strtod s with
  | Some r => Some r
  | None => parse_inf_or_nan s
  end.

Definition could_not_convert : exn :=
  ValueError "could not convert string to float".

(** [float(s)] *)
Definition float_of_str (s : string) : result float :=
  match without_underscores (to_ascii_text (chars s)) with
  | None => Raise could_not_convert
  | Some t =>
      match rev (lstrip_c (rev (lstrip_c t))) with
      | [] => Raise could_not_convert
      | u =>
          match string_to_double u with
          | Some (x, []) => Ok x
          | _ => Raise could_not_convert
          end
      end
  end.

(** ** [datetime.strptime]

    The format is turned into a regular expression, one group of ordered
    alternatives per directive; the text must match from its start, with
    backtracking over the alternatives, and nothing may be left over.  The
    fields found must then form a date of the proleptic Gregorian calendar
    with a year from 1 to 9999. *)

Inductive atom : Type :=
| Digit
| Range (lo hi : ascii)
| Lit (c : ascii).

Definition atom_matches (a : atom) (c : ascii) : bool :=
  match a with
  | Digit => is_digit c
  | Range lo hi => between (ord lo) (ord hi) (ord c)
  | Lit l => Ascii.eqb c l
  end.

(** One alternative: a sequence of one-character classes. *)
Fixpoint match_alt (a : list atom) (s : list ascii) : option (list ascii * list ascii) :=
  match a with
  | [] => Some ([], s)
  | x :: a' =>
      match s with
      | c :: r =>
          if atom_matches x c then
            match match_alt a' r with
            | Some (m, rest) => Some (c :: m, rest)
            | None => None
            end
          else None
      | [] => None
      end
  end.

Fixpoint first_some {A B : Type} (f : A -> option B) (l : list A) : option B :=
  match l with
  | [] => None
  | x :: r =>
      match f x with
      | Some b => Some b
      | None => first_some f r
      end
  end.

(** A sequence of groups: the text matched by each group and the text left,
    for the first choice of alternatives that matches them all. *)
Fixpoint regex_match (p : list (list (list atom))) (s : list ascii)
  : option (list (list ascii) * list ascii) :=
  match p with
  | [] => Some ([], s)
  | g :: p' =>
      first_some (fun a =>
        match match_alt a s with
        | Some (m, r) =>
            match regex_match p' r with
            | Some (ms, rest) => Some (m :: ms, rest)
            | None => None
            end
        | None => None
        end) g
  end.

Definition re_Y : list (list atom) := [[Digit; Digit; Digit; Digit]].
Definition re_m : list (list atom) :=
  [[Lit "1"; Range "0" "2"]; [Lit "0"; Range "1" "9"]; [Range "1" "9"]].
Definition re_d : list (list atom) :=
  [[Lit "3"; Range "0" "1"]; [Range "1" "2"; Digit]; [Lit "0"; Range "1" "9"];
   [Range "1" "9"]; [Lit " "; Range "1" "9"]].
Definition re_H : list (list atom) :=
  [[Lit "2"; Range "0" "3"]; [Range "0" "1"; Digit]; [Digit]].
Definition re_M : list (list atom) := [[Range "0" "5"; Digit]; [Digit]].
Definition re_lit (c : ascii) : list (list atom) := [[Lit c]].

(** [int(s)] on the text of a group: blanks around the digits are skipped. *)
Definition int_of (s : list ascii) : Z := digits_value (lstrip s).

Record datetime : Type := {
  year : Z;
  month : Z;
  day : Z;
  hour : Z;
  minute : Z
}.

Definition is_leap (y : Z) : bool :=
  (y mod 4 =? 0) && (negb (y mod 100 =? 0) || (y mod 400 =? 0)).

Definition days_in_month (y m : Z) : Z :=
  if m =? 2 then (if is_leap y then 29 else 28)
  else if (m =? 4) || (m =? 6) || (m =? 9) || (m =? 11) then 30
  else 31.

(** The checks of the [date] constructor. *)
Definition check_date (y m d : Z) : result unit :=
  if negb (between 1 9999 y) then Raise (ValueError "year is out of range")
  else if negb (between 1 12 m) then Raise (ValueError "month must be in 1..12")
  else if negb (between 1 (days_in_month y m) d)
  then Raise (ValueError "day is out of range for month")
  else Ok tt.

Definition does_not_match : exn :=
  ValueError "time data does not match format".
Definition unconverted_data : exn :=
  ValueError "unconverted data remains".

(** [datetime.strptime(s, "%Y-%m-%d")] *)
Definition strptime_Ymd (s : string) : result datetime :=
  match regex_match [re_Y; re_lit "-"; re_m; re_lit "-"; re_d] (chars s) with
  | Some ([Y; _; m; _; d], rest) =>
      match rest with
      | [] =>
          check_date (int_of Y) (int_of m) (int_of d) ;;
          Ok {| year := int_of Y; month := int_of m; day := int_of d;
                hour := 0; minute := 0 |}
      | _ => Raise unconverted_data
      end
  | _ => Raise does_not_match
  end.

(** [datetime.strptime(s, "%H:%M")]: the date defaults to 1900-01-01. *)
Definition strptime_HM (s : string) : result datetime :=
  match regex_match [re_H; re_lit ":"; re_M] (chars s) with
  | Some ([H; _; M], rest) =>
      match rest with
      | [] =>
          check_date 1900 1 1 ;;
          Ok {| year := 1900; month := 1; day := 1;
                hour := int_of H; minute := int_of M |}
      | _ => Raise unconverted_data
      end
  | _ => Raise does_not_match
  end.

(** ** The models and their validators *)

Record Item : Type := {
  shortDescription : string;
  price : string
}.

Record Receipt : Type := {
  retailer : string;
  purchaseDate : string;
  purchaseTime : string;
  items : list Item;
  total : string
}.

Definition validate_short_description (value : string) : result string :=
  if negb (forallb (fun c => isalnum c || char_in c " -_") (chars value))
  then Raise (ValueError
    "shortDescription can only contain letters, numbers, spaces, hyphens, and underscores.")
  else Ok value.

Definition validate_price (value : string) : result string :=
  except_ValueError
    (do price <- float_of_str value ;;
     if flt price float_0
     then Raise (ValueError "Price cannot be negative.")
     else if negb (len (last_item (split value ".")) =? 2)
     then Raise (ValueError "Price must have exactly two decimal places.")
     else Ok tt)
    "Invalid price format. Expected format: '19.99'." ;;
  Ok value.

Definition validate_retailer (value : string) : result string :=
  if negb (forallb (fun c => isalnum c || char_in c " -&_") (chars value))
  then Raise (ValueError
    "Retailer name can only contain letters, numbers, spaces, hyphens, and ampersands.")
  else Ok value.

Definition validate_total (value : string) : result string :=
  validate_price value.

(** Building a model instance runs the validators of its fields; a
    [ValueError] raised by one of them makes the construction fail with a
    validation error.  Which fields failed is not recorded. *)
Definition as_validation_error {A : Type} (c : result A) : result A :=
  match c with
  | Raise (ValueError _) => Raise ValidationError
  | other => other
  end.

Definition Item_validate (obj : Item) : result Item :=
  as_validation_error
    (do d <- validate_short_description (shortDescription obj) ;;
     do p <- validate_price (price obj) ;;
     Ok {| shortDescription := d; price := p |}).

Fixpoint Items_validate (objs : list Item) : result (list Item) :=
  match objs with
  | [] => Ok []
  | obj :: rest =>
      do item <- Item_validate obj ;;
      do others <- Items_validate rest ;;
      Ok (item :: others)
  end.

Definition Receipt_validate (obj : Receipt) : result Receipt :=
  as_validation_error
    (do r <- validate_retailer (retailer obj) ;;
     do its <- Items_validate (items obj) ;;
     do t <- validate_total (total obj) ;;
     Ok {| retailer := r; purchaseDate := purchaseDate obj;
           purchaseTime := purchaseTime obj; items := its; total := t |}).

(** ** The points rules *)

(** One turn of the loop of rule 5. *)
Definition item_points (points : Z) (item : Item) : result Z :=
  let description := strip (shortDescription item) in
  do price <- float_of_str (price item) ;;
  if len description mod 3 =? 0 then
    do c <- ceil (fmul price float_0_2) ;;
    Ok (points + c)
  else Ok points.

Fixpoint for_items (points : Z) (l : list Item) : result Z :=
  match l with
  | [] => Ok points
  | item :: rest =>
      do points <- item_points points item ;;
      for_items points rest
  end.

(** [sum(c.isalnum() for c in s)] *)
Definition count_alnum (s : string) : Z :=
  Z.of_nat (length (List.filter isalnum (chars s))).

Definition calculate_points (receipt : Receipt) : result Z :=
  let points := 0 in
  (* Rule 1 *)
  let retailer_name := retailer receipt in
  let points := points + count_alnum retailer_name in
  (* Rule 2 *)
  do total <- float_of_str (total receipt) ;;
  let points := if is_integer total then points + 50 else points in
  (* Rule 3 *)
  do m <- float_rem total float_0_25 ;;
  let points := if feq m float_0 then points + 25 else points in
  (* Rule 4 *)
  let points := points + (Z.of_nat (length (items receipt)) / 2) * 5 in
  (* Rule 5 *)
  do points <- for_items points (items receipt) ;;
  (* Rule 6 *)
  do purchase_date <- strptime_Ymd (purchaseDate receipt) ;;
  let points := if day purchase_date mod 2 =? 1 then points + 6 else points in
  (* Rule 7 *)
  do purchase_time <- strptime_HM (purchaseTime receipt) ;;
  let points :=
    if (14 <=? hour purchase_time) && (hour purchase_time <? 16)
    then points + 10 else points in
  Ok points.

(** ** The request handlers

    [uuid4] is the text of the identifier that [str(uuid4())] draws for this
    request. *)

Definition process_receipt (uuid4 : string) (receipt : Receipt)
    (receipts_db : gmap string Receipt)
  : result string * gmap string Receipt :=
  if is_empty (retailer receipt)
     || match items receipt with [] => true | _ => false end
     || is_empty (total receipt)
  then (Raise (HTTPException 400 "The receipt is invalid."), receipts_db)
  else
    let receipt_id := uuid4 in
    (Ok receipt_id, <[receipt_id := receipt]> receipts_db).

Definition get_receipt_points (id : string) (receipts_db : gmap string Receipt)
  : result Z * gmap string Receipt :=
  match receipts_db !! id with
  | None =>
      (Raise (HTTPException 404 "No receipt found for that ID."), receipts_db)
  | Some receipt =>
      let points := calculate_points receipt in
      (points, receipts_db)
  end.

(** POST /receipts/process: the body is parsed into a [Receipt] before the
    handler runs. *)
Definition post_receipts_process (uuid4 : string) (body : Receipt)
    (receipts_db : gmap string Receipt)
  : result string * gmap string Receipt :=
  match Receipt_validate body with
  | Ok receipt => process_receipt uuid4 receipt receipts_db
  | Raise e => (Raise e, receipts_db)
  end.

(** ** Notions used in the statements *)

(** The exceptions raised by the built-in operations, as opposed to those
    the request layer raises on purpose. *)
Definition builtin_error (e : exn) : Prop :=
  match e with
  | ValueError _ | OverflowError _ | ZeroDivisionError _ => True
  | ValidationError | HTTPException _ _ => False
  end.

Definition not_found : exn :=
  HTTPException 404 "No receipt found for that ID.".

Definition invalid_receipt : exn :=
  HTTPException 400 "The receipt is invalid.".

(** The first example receipt of the challenge (28 points). *)
Definition target_receipt : Receipt := {|
  retailer := "Target";
  purchaseDate := "2022-01-01";
  purchaseTime := "13:01";
  items := [
    {| shortDescription := "Mountain Dew 12PK"; price := "6.49" |};
    {| shortDescription := "Emils Cheese Pizza"; price := "12.25" |};
    {| shortDescription := "Knorr Creamy Chicken"; price := "1.26" |};
    {| shortDescription := "Doritos Nacho Cheese"; price := "3.35" |};
    {| shortDescription := "   Klarbrunn 12-PK 12 FL OZ  "; price := "12.00" |} ];
  total := "35.35"
|}.

(** A receipt with another purchase date and time, or another time only. *)
Definition with_date_time (r : Receipt) (d t : string) : Receipt :=
  {| retailer := retailer r; purchaseDate := d; purchaseTime := t;
     items := items r; total := total r |}.

Definition with_time (r : Receipt) (t : string) : Receipt :=
  with_date_time r (purchaseDate r) t.

(** The spec's words for the two fields, "calendar date (ISO YYYY-MM-DD)"
    and "time of day, 24-hour HH:MM", taken strictly. *)
Definition iso_calendar_date (s : string) : bool :=
  match chars s with
  | [y1; y2; y3; y4; s1; m1; m2; s2; d1; d2] =>
      forallb is_digit [y1; y2; y3; y4; m1; m2; d1; d2]
      && Ascii.eqb s1 "-" && Ascii.eqb s2 "-"
      && between 1 12 (digits_value [m1; m2])
      && between 1 (days_in_month (digits_value [y1; y2; y3; y4])
                      (digits_value [m1; m2]))
           (digits_value [d1; d2])
  | _ => false
  end.

Definition hh_mm_time (s : string) : bool :=
  match chars s with
  | [h1; h2; s1; m1; m2] =>
      forallb is_digit [h1; h2; m1; m2] && Ascii.eqb s1 ":"
      && (digits_value [h1; h2] <? 24) && (digits_value [m1; m2] <? 60)
  | _ => false
  end.

(** C1 as the spec states it, for one submission. *)
Definition malformed_date_time_rejected (uuid4 : string) (body : Receipt)
    (db : gmap string Receipt) : Prop :=
  iso_calendar_date (purchaseDate body) = false
  \/ hh_mm_time (purchaseTime body) = false ->
  exists e, post_receipts_process uuid4 body db = (Raise e, db)
            /\ client_error e = true.

(** A character allowed in a shortDescription. *)
Definition description_char_ok (c : ascii) : Prop :=
  isalnum c = true \/ In c [" "; "-"; "_"]%char.

(** C3 as the spec states it, for one string. *)
Definition short_description_rule (s : string) : Prop :=
  s <> "" /\ Forall description_char_ok (chars s).

(** The points accumulated when rule 7 is reached. *)
Definition points_before_rule7 (receipt : Receipt) : result Z :=
  let points := 0 in
  let points := points + count_alnum (retailer receipt) in
  do total <- float_of_str (total receipt) ;;
  let points := if is_integer total then points + 50 else points in
  do m <- float_rem total float_0_25 ;;
  let points := if feq m float_0 then points + 25 else points in
  let points := points + (Z.of_nat (length (items receipt)) / 2) * 5 in
  do points <- for_items points (items receipt) ;;
  do purchase_date <- strptime_Ymd (purchaseDate receipt) ;;
  let points := if day purchase_date mod 2 =? 1 then points + 6 else points in
  Ok points.

Definition afternoon (t : datetime) : Z :=
  if (14 <=? hour t) && (hour t <? 16) then 10 else 0.

(** The example receipt with a date and a time that are none. *)
Definition undated_receipt : Receipt :=
  with_date_time target_receipt "tomorrow" "noon".


(** A description made of [n] spaces. *)
Definition blanks (n : nat) : string := string_of_list_ascii (repeat " "%char n).

(** An item whose price is read as a finite float. *)
Definition price_finite (item : Item) : Prop :=
  exists k, float_of_str (price item) = Ok (Fin k).

(** C5 as the spec states it, for one receipt. *)
Definition points_defined_nonneg (receipt : Receipt) : Prop :=
  Receipt_validate receipt = Ok receipt ->
  exists n, calculate_points receipt = Ok n /\ 0 <= n.

(** The example receipt, dated on a day that does not exist. *)
Definition february_30_receipt : Receipt :=
  with_date_time target_receipt "2022-02-30" "13:01".

(** A price of 400 nines, a point and two zeros. *)
Definition huge_price : string :=
  string_of_list_ascii (repeat "9"%char 400 ++ chars ".00").

Definition huge_price_receipt : Receipt := {|
  retailer := "Target";
  purchaseDate := "2022-01-01";
  purchaseTime := "13:01";
  items := [ {| shortDescription := "Gem"; price := huge_price |} ];
  total := "35.35"
|}.

(** The points of rules 1, 4, 5, 6 and 7: [calculate_points] without the
    two rules that read total. *)
Definition points_of_other_rules (receipt : Receipt) : result Z :=
  let points := 0 in
  let points := points + count_alnum (retailer receipt) in
  let points := points + (Z.of_nat (length (items receipt)) / 2) * 5 in
  do points <- for_items points (items receipt) ;;
  do purchase_date <- strptime_Ymd (purchaseDate receipt) ;;
  let points := if day purchase_date mod 2 =? 1 then points + 6 else points in
  do purchase_time <- strptime_HM (purchaseTime receipt) ;;
  let points :=
    if (14 <=? hour purchase_time) && (hour purchase_time <? 16)
    then points + 10 else points in
  Ok points.

(** The exact value, in cents, of a monetary string in the format of the
    spec: digits, a point and two digits. *)
Definition money_cents (s : string) : option Z :=
  match rev (chars s) with
  | c2 :: c1 :: p :: d :: ds =>
      if Ascii.eqb p "." && forallb is_digit (c2 :: c1 :: d :: ds)
      then Some (digits_value (rev (d :: ds) ++ [c1; c2]))
      else None
  | _ => None
  end.

(** The spec's words for rules 2 and 3, decided on the exact decimal value:
    50 for zero cents, 25 for a multiple of 0.25. *)
Definition exact_total_bonus (cents : Z) : Z :=
  (if cents mod 100 =? 0 then 50 else 0) + (if cents mod 25 =? 0 then 25 else 0).

Definition with_total (r : Receipt) (t : string) : Receipt :=
  {| retailer := retailer r; purchaseDate := purchaseDate r;
     purchaseTime := purchaseTime r; items := items r; total := t |}.

(** C4 as the spec states it, for one receipt. *)
Definition total_bonus_exact (receipt : Receipt) : Prop :=
  Receipt_validate receipt = Ok receipt ->
  forall cents rest : Z,
    money_cents (total receipt) = Some cents ->
    points_of_other_rules receipt = Ok rest ->
    calculate_points receipt = Ok (rest + exact_total_bonus cents).

(** The example receipt with a total of 2^47 + 0.26, and with a total of
    100.00. *)
Definition large_total_receipt : Receipt :=
  with_total target_receipt "140737488355328.26".

Definition round_total_receipt : Receipt :=
  with_total target_receipt "100.00".

(** [n] is the sum of the contributions of the seven rules on [receipt],
    none of which is negative. *)
Definition seven_contributions (receipt : Receipt) (n : Z) : Prop :=
  exists c1 c2 c3 c4 c5 c6 c7 : Z,
    n = c1 + c2 + c3 + c4 + c5 + c6 + c7
    /\ c1 = count_alnum (retailer receipt) /\ 0 <= c1
    /\ (c2 = 0 \/ c2 = 50) /\ (c3 = 0 \/ c3 = 25)
    /\ c4 = Z.of_nat (length (items receipt)) / 2 * 5 /\ 0 <= c4
    /\ for_items 0 (items receipt) = Ok c5 /\ 0 <= c5
    /\ (c6 = 0 \/ c6 = 6) /\ (c7 = 0 \/ c7 = 10).




Definition with_items (r : Receipt) (l : list Item) : Receipt :=
  {| retailer := retailer r; purchaseDate := purchaseDate r;
     purchaseTime := purchaseTime r; items := l; total := total r |}.

(** [item] under another description. *)
Definition with_description (item : Item) (description : string) : Item :=
  {| shortDescription := description; price := price item |}.

(** [receipt], whose items are [pre], [item] and [post], with [item] under
    another description. *)
Definition redescribed (receipt : Receipt) (pre : list Item) (item : Item)
    (post : list Item) (description : string) : Receipt :=
  with_items receipt (pre ++ with_description item description :: post).

(** C10 as the spec states it, for one receipt that passed validation: each
    item of blank description adds ceil(price * 0.2) to what the receipt
    gets when that item has a description of one letter. *)
Definition blank_items_get_bonus (receipt : Receipt) : Prop :=
  Receipt_validate receipt = Ok receipt ->
  forall (pre post : list Item) (item : Item),
    items receipt = (pre ++ item :: post)%list ->
    strip (shortDescription item) = "" ->
    exists (p : float) (c n : Z),
      float_of_str (price item) = Ok p
      /\ ceil (fmul p float_0_2) = Ok c
      /\ calculate_points (redescribed receipt pre item post "x") = Ok n
      /\ calculate_points receipt = Ok (n + c).

(** An item of blank description with the price of 400 nines, and the
    example receipt with this item first. *)
Definition blank_huge_item : Item :=
  {| shortDescription := "   "; price := huge_price |}.

Definition blank_huge_receipt : Receipt :=
  with_items target_receipt (blank_huge_item :: items target_receipt).

(** An item of blank description, and the example receipt with this item
    after its first two. *)
Definition blank_item : Item := {| shortDescription := "   "; price := "12.25" |}.

Definition blank_item_receipt : Receipt :=
  with_items target_receipt
    (firstn 2 (items target_receipt) ++ blank_item
       :: skipn 2 (items target_receipt)).

(** ** Notions used in the further properties *)

(** A character allowed in a retailer name. *)
Definition retailer_char_ok (c : ascii) : Prop :=
  isalnum c = true \/ In c [" "; "-"; "&"; "_"]%char.

(** The message every failure of [validate_price] ends with. *)
Definition invalid_price_format : exn :=
  ValueError "Invalid price format. Expected format: '19.99'.".

(** The requests the application serves, and the store after a sequence of
    them: the answers are dropped, the module-level dict is kept. *)
Inductive request : Type :=
| Submit (uuid4 : string) (body : Receipt)
| Fetch (id : string).

Definition handle (req : request) (db : gmap string Receipt)
  : gmap string Receipt :=
  match req with
  | Submit uuid4 body => snd (post_receipts_process uuid4 body db)
  | Fetch id => snd (get_receipt_points id db)
  end.

Definition serve (reqs : list request) (db : gmap string Receipt)
  : gmap string Receipt :=
  fold_left (fun db req => handle req db) reqs db.

(** What holds of a receipt that went through the submission checks. *)
Definition accepted_receipt (r : Receipt) : Prop :=
  Receipt_validate r = Ok r /\ retailer r <> "" /\ items r <> [] /\ total r <> "".

(** Every receipt of the store went through the submission checks. *)
Definition store_ok (db : gmap string Receipt) : Prop :=
  forall (id : string) (r : Receipt), db !! id = Some r -> accepted_receipt r.

(** An item whose price is in the format of the spec and below 2^47. *)
Definition price_in_format (item : Item) : Prop :=
  exists cents, money_cents (price item) = Some cents /\ cents < 100 * 2 ^ 47.

(** Rule 5 in exact integer arithmetic: the ceiling of a fifth of the price,
    [cents] being the price in cents. *)
Definition exact_item_bonus (item : Item) (cents : Z) : Z :=
  if len (strip (shortDescription item)) mod 3 =? 0
  then (cents + 499) / 500 else 0.

Fixpoint exact_items_bonus (l : list Item) : option Z :=
  match l with
  | [] => Some 0
  | item :: rest =>
      match money_cents (price item), exact_items_bonus rest with
      | Some cents, Some b => Some (exact_item_bonus item cents + b)
      | _, _ => None
      end
  end.

(** The seven rules in exact integer arithmetic, for a receipt whose total
    and prices are digits, a point and two digits, whose date is written
    YYYY-MM-DD and whose time is written HH:MM. *)
Definition exact_points (r : Receipt) : option Z :=
  match money_cents (total r), exact_items_bonus (items r) with
  | Some cents, Some b =>
      let day := digits_value (skipn 8 (chars (purchaseDate r))) in
      let hour := digits_value (firstn 2 (chars (purchaseTime r))) in
      Some (count_alnum (retailer r)
            + exact_total_bonus cents
            + Z.of_nat (length (items r)) / 2 * 5
            + b
            + (if day mod 2 =? 1 then 6 else 0)
            + (if (14 <=? hour) && (hour <? 16) then 10 else 0))
  | _, _ => None
  end.

(** An item whose price is in the format of the spec and below 2^40. *)
Definition price_below_2_40 (item : Item) : Prop :=
  exists cents, money_cents (price item) = Some cents /\ cents < 100 * 2 ^ 40.

(** A receipt in the formats of the spec, with amounts of ordinary size. *)
Definition well_formed (r : Receipt) : Prop :=
  (exists cents, money_cents (total r) = Some cents /\ cents < 100 * 2 ^ 47)
  /\ List.Forall price_below_2_40 (items r)
  /\ iso_calendar_date (purchaseDate r) = true
  /\ 1 <= digits_value (firstn 4 (chars (purchaseDate r)))
  /\ hh_mm_time (purchaseTime r) = true.

(** A character that can occur in the text of a nan, with its sign. *)
Definition nan_char (c : ascii) : bool :=
  Ascii.eqb (Py_TOLOWER c) "n" || Ascii.eqb (Py_TOLOWER c) "a"
  || Ascii.eqb c "+" || Ascii.eqb c "-".

(** A point, or the question mark that replaces a character [float] cannot
    read. *)
Definition point_or_mark (c : ascii) : bool :=
  Ascii.eqb c "." || Ascii.eqb c "?".

(** The error of [math.ceil] on an infinite float. *)
Definition ceil_overflow : exn :=
  OverflowError "cannot convert float infinity to integer".

(** An item whose price reads as positive infinity and whose trimmed
    description has a length that is a multiple of three. *)
Definition infinite_bonus_item (item : Item) : Prop :=
  float_of_str (price item) = Ok (Inf false)
  /\ len (strip (shortDescription item)) mod 3 = 0.

(** * Properties *)

(** Case analysis on the first [match] of the goal. *)
Ltac case_match_goal :=
  match goal with
  | |- context [match ?x with _ => _ end] => destruct x eqn:?
  end.

(** ** Which exceptions the points computation can raise *)

Lemma bind_raises {A B : Type} (c : result A) (k : A -> result B) (e : exn) :
  bind c k = Raise e ->
  c = Raise e \/ exists a, c = Ok a /\ k a = Raise e.
Proof.
  destruct c as [a | e']; simpl; intros H.
  - right. exists a. split; [reflexivity | exact H].
  - left. inversion H. reflexivity.
Qed.

Lemma float_of_str_raises (s : string) (e : exn) :
  float_of_str s = Raise e -> builtin_error e.
Proof.
  unfold float_of_str. repeat case_match_goal; intros H; inversion H; exact I.
Qed.

Lemma ceil_raises (x : float) (e : exn) : ceil x = Raise e -> builtin_error e.
Proof. destruct x; simpl; intros H; inversion H; exact I. Qed.

Lemma float_rem_raises (v w : float) (e : exn) :
  float_rem v w = Raise e -> builtin_error e.
Proof.
  unfold float_rem. repeat case_match_goal; intros H; inversion H; exact I.
Qed.

Lemma check_date_raises (y m d : Z) (e : exn) :
  check_date y m d = Raise e -> builtin_error e.
Proof.
  unfold check_date. repeat case_match_goal; intros H; inversion H; exact I.
Qed.

Lemma strptime_Ymd_raises (s : string) (e : exn) :
  strptime_Ymd s = Raise e -> builtin_error e.
Proof.
  unfold strptime_Ymd. repeat case_match_goal; intros H; try (inversion H; exact I).
  apply bind_raises in H. destruct H as [H | [[] [_ H]]]; [| inversion H].
  eapply check_date_raises; eassumption.
Qed.

Lemma strptime_HM_raises (s : string) (e : exn) :
  strptime_HM s = Raise e -> builtin_error e.
Proof.
  unfold strptime_HM. repeat case_match_goal; intros H; inversion H; exact I.
Qed.

Lemma item_points_raises (points : Z) (item : Item) (e : exn) :
  item_points points item = Raise e -> builtin_error e.
Proof.
  unfold item_points. intros H.
  apply bind_raises in H. destruct H as [H | [p [_ H]]].
  - eapply float_of_str_raises; eassumption.
  - destruct (len _ mod 3 =? 0); [| inversion H].
    apply bind_raises in H. destruct H as [H | [c [_ H]]]; [| inversion H].
    eapply ceil_raises; eassumption.
Qed.

Lemma for_items_raises (l : list Item) (points : Z) (e : exn) :
  for_items points l = Raise e -> builtin_error e.
Proof.
  revert points. induction l as [| item rest IH]; simpl; intros points H.
  - inversion H.
  - apply bind_raises in H. destruct H as [H | [p [_ H]]].
    + eapply item_points_raises; eassumption.
    + eapply IH; eassumption.
Qed.

Create HintDb raises.

#[local] Hint Resolve float_of_str_raises float_rem_raises for_items_raises
  strptime_Ymd_raises strptime_HM_raises : raises.

(** Whatever [calculate_points] raises comes from a built-in operation. *)
Lemma calculate_points_raises (receipt : Receipt) (e : exn) :
  calculate_points receipt = Raise e -> builtin_error e.
Proof.
  unfold calculate_points. intros H.
  repeat (apply bind_raises in H;
          destruct H as [H | [? [_ H]]]; [eauto with raises |]).
  inversion H.
Qed.

(** ** The store and the two operations *)

Lemma process_receipt_stores (uuid4 id : string) (receipt : Receipt)
    (db db' : gmap string Receipt) :
  process_receipt uuid4 receipt db = (Ok id, db') ->
  id = uuid4 /\ db' = <[uuid4 := receipt]> db.
Proof.
  unfold process_receipt. case_match_goal; intros H; inversion H.
  split; reflexivity.
Qed.

Lemma post_receipts_process_stores (uuid4 id : string) (body : Receipt)
    (db db' : gmap string Receipt) :
  post_receipts_process uuid4 body db = (Ok id, db') ->
  exists receipt, Receipt_validate body = Ok receipt /\ db' !! id = Some receipt.
Proof.
  unfold post_receipts_process.
  destruct (Receipt_validate body) as [receipt | e]; intros H.
  - apply process_receipt_stores in H. destruct H as [-> ->].
    exists receipt. split; [reflexivity | apply lookup_insert_eq].
  - inversion H.
Qed.

Lemma post_receipts_process_accepts (uuid4 : string) (body : Receipt)
    (db : gmap string Receipt) :
  Receipt_validate body = Ok body ->
  is_empty (retailer body) = false ->
  items body <> [] ->
  is_empty (total body) = false ->
  post_receipts_process uuid4 body db = (Ok uuid4, <[uuid4 := body]> db).
Proof.
  intros Hv Hr Hi Ht. unfold post_receipts_process, process_receipt.
  rewrite Hv, Hr, Ht. destruct (items body); [congruence | reflexivity].
Qed.

Lemma target_receipt_accepted (uuid4 : string) (db : gmap string Receipt) :
  post_receipts_process uuid4 target_receipt db
  = (Ok uuid4, <[uuid4 := target_receipt]> db).
Proof.
  apply post_receipts_process_accepts;
    [vm_compute; reflexivity | reflexivity | discriminate | reflexivity].
Qed.

(** C8: fetch-points answers not-found, with the message "No receipt found
    for that ID.", exactly when the identifier is not a key of the store;
    and for the identifier returned by a successful submission, fetch-points
    on the resulting store does not answer not-found: the receipt is there. *)
Theorem fetch_not_found_iff_absent :
  (forall (id : string) (db : gmap string Receipt),
      fst (get_receipt_points id db) = Raise not_found <-> db !! id = None)
  /\ (forall (uuid4 id : string) (body : Receipt) (db db' : gmap string Receipt),
      post_receipts_process uuid4 body db = (Ok id, db') ->
      is_Some (db' !! id)
      /\ fst (get_receipt_points id db') <> Raise not_found).
Proof.
  assert (Hiff : forall (id : string) (db : gmap string Receipt),
             fst (get_receipt_points id db) = Raise not_found <-> db !! id = None).
  { intros id db. unfold get_receipt_points.
    destruct (db !! id) as [receipt |] eqn:Hlook; simpl.
    - split; [| discriminate]. intros H.
      apply calculate_points_raises in H. destruct H.
    - split; reflexivity. }
  split; [exact Hiff |].
  intros uuid4 id body db db' H.
  apply post_receipts_process_stores in H. destruct H as [receipt [_ Hlook]].
  split; [exists receipt; exact Hlook |].
  intros Hnf. apply Hiff in Hnf. congruence.
Qed.

Lemma fetch_not_found_iff_absent_witness :
  fst (get_receipt_points "7fb1377b" (<["7fb1377b" := target_receipt]> ∅))
  <> Raise not_found.
Proof.
  apply (proj2 fetch_not_found_iff_absent "7fb1377b" "7fb1377b" target_receipt ∅
           (<["7fb1377b" := target_receipt]> ∅)).
  vm_compute. reflexivity.
Defined.

(** C9: for a stored identifier, two fetch-points calls in a row return the
    same value, namely the points of the stored receipt: the call leaves the
    store as it was, and the value is a function of the stored receipt. *)
Theorem fetch_points_twice (id : string) (receipt : Receipt)
    (db : gmap string Receipt) :
  db !! id = Some receipt ->
  let first := get_receipt_points id db in
  let second := get_receipt_points id (snd first) in
  snd first = db /\ snd second = db
  /\ fst first = calculate_points receipt
  /\ fst second = fst first.
Proof.
  intros Hlook. unfold get_receipt_points. rewrite Hlook. simpl.
  rewrite Hlook. simpl. repeat split; reflexivity.
Qed.

Lemma fetch_points_twice_witness :
  fst (get_receipt_points "7fb1377b"
         (snd (get_receipt_points "7fb1377b" (<["7fb1377b" := target_receipt]> ∅))))
  = fst (get_receipt_points "7fb1377b" (<["7fb1377b" := target_receipt]> ∅)).
Proof.
  apply (fetch_points_twice "7fb1377b" target_receipt
           (<["7fb1377b" := target_receipt]> ∅)).
  vm_compute. reflexivity.
Defined.

(** ** The validators *)

Lemma bind_ok {A B : Type} (c : result A) (k : A -> result B) (b : B) :
  bind c k = Ok b -> exists a, c = Ok a /\ k a = Ok b.
Proof.
  destruct c as [a | e]; simpl; intros H; [| discriminate].
  exists a. split; [reflexivity | exact H].
Qed.

Lemma char_in_spec (c : ascii) (t : string) :
  char_in c t = true <-> In c (chars t).
Proof.
  unfold char_in. rewrite existsb_exists. split.
  - intros [x [Hin Heq]]. apply Ascii.eqb_eq in Heq. subst x. exact Hin.
  - intros Hin. exists c. split; [exact Hin | apply Ascii.eqb_refl].
Qed.

Lemma float_of_str_error (s : string) (e : exn) :
  float_of_str s = Raise e -> e = could_not_convert.
Proof.
  unfold float_of_str. repeat case_match_goal; intros H; inversion H; reflexivity.
Qed.

Lemma validate_short_description_ok (s : string) :
  validate_short_description s = Ok s
  <-> forallb (fun c => isalnum c || char_in c " -_") (chars s) = true.
Proof.
  unfold validate_short_description.
  destruct (forallb _ (chars s)); simpl; split; intros H;
    try reflexivity; discriminate.
Qed.

Lemma validate_retailer_ok (s : string) :
  validate_retailer s = Ok s
  <-> forallb (fun c => isalnum c || char_in c " -&_") (chars s) = true.
Proof.
  unfold validate_retailer.
  destruct (forallb _ (chars s)); simpl; split; intros H;
    try reflexivity; discriminate.
Qed.

Lemma validate_short_description_cases (s : string) :
  validate_short_description s = Ok s
  \/ exists msg, validate_short_description s = Raise (ValueError msg).
Proof.
  unfold validate_short_description.
  destruct (forallb _ (chars s)); simpl; [left; reflexivity | right; eauto].
Qed.

Lemma validate_retailer_cases (s : string) :
  validate_retailer s = Ok s
  \/ exists msg, validate_retailer s = Raise (ValueError msg).
Proof.
  unfold validate_retailer.
  destruct (forallb _ (chars s)); simpl; [left; reflexivity | right; eauto].
Qed.

Lemma validate_price_cases (value : string) :
  (validate_price value = Ok value
   /\ exists x, float_of_str value = Ok x /\ flt x float_0 = false
                /\ len (last_item (split value ".")) = 2)
  \/ exists msg, validate_price value = Raise (ValueError msg).
Proof.
  unfold validate_price.
  destruct (float_of_str value) as [x | e] eqn:Hx; simpl.
  - destruct (flt x float_0) eqn:Hneg; simpl; [right; eauto |].
    destruct (len (last_item (split value ".")) =? 2) eqn:Hlen; simpl;
      [| right; eauto].
    left. split; [reflexivity |]. exists x.
    apply Z.eqb_eq in Hlen. auto.
  - apply float_of_str_error in Hx. subst e. simpl. right; eauto.
Qed.

Lemma Item_validate_cases (obj : Item) :
  (Item_validate obj = Ok obj
   /\ validate_short_description (shortDescription obj) = Ok (shortDescription obj)
   /\ validate_price (price obj) = Ok (price obj))
  \/ Item_validate obj = Raise ValidationError.
Proof.
  unfold Item_validate.
  destruct (validate_short_description_cases (shortDescription obj))
    as [Hd | [msg Hd]]; rewrite Hd; simpl; [| right; reflexivity].
  destruct (validate_price_cases (price obj)) as [[Hp _] | [msg Hp]];
    rewrite Hp; simpl; [| right; reflexivity].
  left. destruct obj; auto.
Qed.

Lemma Items_validate_cases (objs : list Item) :
  (Items_validate objs = Ok objs
   /\ Forall (fun obj => Item_validate obj = Ok obj) objs)
  \/ Items_validate objs = Raise ValidationError.
Proof.
  induction objs as [| obj rest IH]; simpl.
  - left. split; [reflexivity | constructor].
  - destruct (Item_validate_cases obj) as [[Hi _] | Hi]; rewrite Hi; simpl;
      [| right; reflexivity].
    destruct IH as [[Hr Hall] | Hr]; rewrite Hr; simpl; [| right; reflexivity].
    left. split; [reflexivity | constructor; assumption].
Qed.

(** A receipt is built unchanged when its retailer, every item and its total
    pass their validators, and the construction fails with a validation
    error otherwise. *)
Lemma Receipt_validate_cases (obj : Receipt) :
  (Receipt_validate obj = Ok obj
   /\ validate_retailer (retailer obj) = Ok (retailer obj)
   /\ Forall (fun i => Item_validate i = Ok i) (items obj)
   /\ validate_total (total obj) = Ok (total obj))
  \/ Receipt_validate obj = Raise ValidationError.
Proof.
  unfold Receipt_validate.
  destruct (validate_retailer_cases (retailer obj)) as [Hr | [msg Hr]];
    rewrite Hr; simpl; [| right; reflexivity].
  destruct (Items_validate_cases (items obj)) as [[Hi Hall] | Hi];
    rewrite Hi; simpl; [| right; reflexivity].
  unfold validate_total.
  destruct (validate_price_cases (total obj)) as [[Ht _] | [msg Ht]];
    rewrite Ht; simpl; [| right; reflexivity].
  left. destruct obj; auto.
Qed.

Lemma empty_description_not_in_rule : ~ short_description_rule "".
Proof. intros [H _]. apply H. reflexivity. Qed.

(** C3, as stated, fails on the empty string: the validator accepts it, and
    the rule of the spec excludes it. *)
Lemma empty_description_accepted :
  ~ (validate_short_description "" = Ok "" <-> short_description_rule "").
Proof.
  intros [H _]. apply empty_description_not_in_rule. apply H. reflexivity.
Qed.

(** C3, amended: the shortDescription validator accepts a string if and only
    if every character of it is alphanumeric or a space, a hyphen or an
    underscore; it raises a ValueError otherwise; the empty string is
    accepted. *)
Theorem short_description_accepted_iff (s : string) :
  (validate_short_description s = Ok s <-> Forall description_char_ok (chars s))
  /\ (validate_short_description s = Ok s
      \/ exists msg, validate_short_description s = Raise (ValueError msg))
  /\ validate_short_description "" = Ok "".
Proof.
  split; [| split; [apply validate_short_description_cases | reflexivity]].
  rewrite validate_short_description_ok, List.forallb_forall, List.Forall_forall.
  split; intros H c Hin; specialize (H c Hin).
  - apply orb_true_iff in H. destruct H as [H | H]; [left; exact H |].
    right. apply char_in_spec in H. exact H.
  - apply orb_true_iff. destruct H as [H | H]; [left; exact H |].
    right. apply char_in_spec. exact H.
Qed.

(** ** Rejections at submission *)

Lemma process_receipt_rejects_empty (uuid4 : string) (receipt : Receipt)
    (db : gmap string Receipt) :
  retailer receipt = "" \/ items receipt = [] \/ total receipt = "" ->
  process_receipt uuid4 receipt db = (Raise invalid_receipt, db).
Proof.
  unfold process_receipt. intros [H | [H | H]]; rewrite H; simpl.
  - reflexivity.
  - rewrite orb_true_r. reflexivity.
  - rewrite orb_true_r. reflexivity.
Qed.





(** ** Date and time at submission *)

Lemma Receipt_validate_with_date_time (body : Receipt) (d t : string) :
  Receipt_validate (with_date_time body d t)
  = (do r <- Receipt_validate body ;; Ok (with_date_time r d t)).
Proof.
  unfold Receipt_validate, with_date_time. simpl.
  destruct (validate_retailer (retailer body)) as [r | []]; simpl; try reflexivity.
  destruct (Items_validate (items body)) as [its | []]; simpl; try reflexivity.
  destruct (validate_total (total body)) as [tt | []]; simpl; reflexivity.
Qed.

Lemma calculate_points_rule7 (receipt : Receipt) :
  calculate_points receipt
  = (do p <- points_before_rule7 receipt ;;
     do t <- strptime_HM (purchaseTime receipt) ;;
     Ok (p + afternoon t)).
Proof.
  unfold calculate_points, points_before_rule7, bind.
  destruct (float_of_str (total receipt)) as [x |]; [| reflexivity].
  destruct (float_rem x float_0_25) as [m |]; [| reflexivity].
  destruct (for_items _ (items receipt)) as [p |]; [| reflexivity].
  destruct (strptime_Ymd (purchaseDate receipt)) as [d |]; [| reflexivity].
  destruct (strptime_HM (purchaseTime receipt)) as [t |]; [| reflexivity].
  unfold afternoon. destruct ((14 <=? hour t) && (hour t <? 16)); f_equal; lia.
Qed.

Lemma points_need_date_and_time (receipt : Receipt) (n : Z) :
  calculate_points receipt = Ok n ->
  (exists d, strptime_Ymd (purchaseDate receipt) = Ok d)
  /\ (exists t, strptime_HM (purchaseTime receipt) = Ok t).
Proof.
  unfold calculate_points. intros H.
  apply bind_ok in H. destruct H as [x [_ H]].
  apply bind_ok in H. destruct H as [m [_ H]].
  apply bind_ok in H. destruct H as [p [_ H]].
  apply bind_ok in H. destruct H as [d [Hd H]].
  apply bind_ok in H. destruct H as [t [Ht H]].
  split; eauto.
Qed.

Lemma builtin_error_status (e : exn) : builtin_error e -> status_of e = 500.
Proof. destruct e; simpl; intros H; try reflexivity; destruct H. Qed.

(** C1, as stated, fails: a receipt whose purchaseDate is "tomorrow" and
    whose purchaseTime is "noon" is accepted and stored, and fetching its
    points runs the points computation, which raises a ValueError. *)
Lemma malformed_date_time_stored :
  ~ malformed_date_time_rejected "7fb1377b" undated_receipt ∅
  /\ exists msg,
      fst (get_receipt_points "7fb1377b"
             (snd (post_receipts_process "7fb1377b" undated_receipt ∅)))
      = Raise (ValueError msg).
Proof.
  assert (Hpost : post_receipts_process "7fb1377b" undated_receipt ∅
                  = (Ok "7fb1377b", <["7fb1377b" := undated_receipt]> ∅)).
  { apply post_receipts_process_accepts;
      [vm_compute; reflexivity | reflexivity | discriminate | reflexivity]. }
  split.
  - intros H. destruct H as [e [Heq _]]; [left; reflexivity |].
    rewrite Hpost in Heq. discriminate.
  - rewrite Hpost. unfold get_receipt_points, snd.
    rewrite lookup_insert_eq. eexists. vm_compute. reflexivity.
Qed.

(** C1, amended: the submission operation does not look at purchaseDate and
    purchaseTime.  Replacing them by any two strings changes neither whether
    the receipt is accepted nor the answer, and an accepted receipt is stored
    with the strings it came with.  They are parsed only by the points
    computation, which raises an error, answered with status 500, and yields
    no points when either does not parse. *)
Theorem date_time_unchecked_at_submission :
  (forall (uuid4 : string) (body : Receipt) (db : gmap string Receipt)
          (d t : string),
      post_receipts_process uuid4 (with_date_time body d t) db
      = match post_receipts_process uuid4 body db with
        | (Ok id, _) => (Ok id, <[id := with_date_time body d t]> db)
        | (Raise e, _) => (Raise e, db)
        end)
  /\ (forall receipt : Receipt,
      (exists e, strptime_Ymd (purchaseDate receipt) = Raise e)
      \/ (exists e, strptime_HM (purchaseTime receipt) = Raise e) ->
      exists e, calculate_points receipt = Raise e /\ status_of e = 500).
Proof.
  split.
  - intros uuid4 body db d t. unfold post_receipts_process.
    rewrite Receipt_validate_with_date_time.
    destruct (Receipt_validate_cases body) as [[Hv _] | Hv]; rewrite Hv; simpl;
      [| reflexivity].
    unfold process_receipt. simpl.
    destruct (is_empty (retailer body) || _ || is_empty (total body));
      reflexivity.
  - intros receipt H.
    destruct (calculate_points receipt) as [n | e] eqn:Hc.
    + apply points_need_date_and_time in Hc. destruct Hc as [[d Hd] [t Ht]].
      destruct H as [[e He] | [e He]]; congruence.
    + exists e. split; [reflexivity |].
      apply builtin_error_status. eapply calculate_points_raises; eassumption.
Qed.

Lemma date_time_unchecked_at_submission_witness :
  exists e, calculate_points undated_receipt = Raise e /\ status_of e = 500.
Proof.
  apply (proj2 date_time_unchecked_at_submission undated_receipt).
  left. eexists. vm_compute. reflexivity.
Defined.

(** ** Rule 5 on a blank description *)

Lemma lstrip_blanks (n : nat) : lstrip (repeat " "%char n) = [].
Proof. induction n as [| n IH]; simpl; [reflexivity | exact IH]. Qed.

Lemma strip_blanks (n : nat) : strip (blanks n) = "".
Proof.
  unfold strip, blanks, chars. rewrite list_ascii_of_string_of_list_ascii.
  rewrite lstrip_blanks. reflexivity.
Qed.

Lemma blanks_valid (n : nat) :
  validate_short_description (blanks n) = Ok (blanks n).
Proof.
  apply validate_short_description_ok. unfold blanks, chars.
  rewrite list_ascii_of_string_of_list_ascii.
  induction n as [| n IH]; simpl; [reflexivity | exact IH].
Qed.

(** ** Rule 7 *)

(** C6: when rule 7 is reached with [p] points, a purchaseTime parsed to
    hour [h] makes the total [p + 10] if 14 <= h < 16 and [p] otherwise,
    whatever the minutes: "14:00" and "14:59" earn 10 points, "16:00" and
    "13:59" none. *)
Theorem afternoon_bonus (receipt : Receipt) (p : Z) :
  points_before_rule7 receipt = Ok p ->
  (forall (s : string) (t : datetime),
      strptime_HM s = Ok t ->
      calculate_points (with_time receipt s)
      = Ok (p + (if (14 <=? hour t) && (hour t <? 16) then 10 else 0)))
  /\ calculate_points (with_time receipt "14:00") = Ok (p + 10)
  /\ calculate_points (with_time receipt "14:59") = Ok (p + 10)
  /\ calculate_points (with_time receipt "16:00") = Ok p
  /\ calculate_points (with_time receipt "13:59") = Ok p.
Proof.
  intros Hp.
  assert (Hgen : forall (s : string) (t : datetime),
             strptime_HM s = Ok t ->
             calculate_points (with_time receipt s) = Ok (p + afternoon t)).
  { intros s t Ht. rewrite calculate_points_rule7.
    change (points_before_rule7 (with_time receipt s))
      with (points_before_rule7 receipt).
    rewrite Hp. change (purchaseTime (with_time receipt s)) with s.
    rewrite Ht. reflexivity. }
  split; [exact Hgen |].
  repeat split.
  - apply (Hgen "14:00" {| year := 1900; month := 1; day := 1; hour := 14; minute := 0 |}).
    reflexivity.
  - apply (Hgen "14:59" {| year := 1900; month := 1; day := 1; hour := 14; minute := 59 |}).
    reflexivity.
  - rewrite (Hgen "16:00" {| year := 1900; month := 1; day := 1; hour := 16; minute := 0 |});
      [f_equal; apply Z.add_0_r | reflexivity].
  - rewrite (Hgen "13:59" {| year := 1900; month := 1; day := 1; hour := 13; minute := 59 |});
      [f_equal; apply Z.add_0_r | reflexivity].
Qed.

Lemma afternoon_bonus_witness :
  calculate_points (with_time target_receipt "14:00") = Ok (28 + 10).
Proof.
  refine (proj1 (proj2 (afternoon_bonus target_receipt 28 _))).
  vm_compute. reflexivity.
Defined.

(** ** Rounding to binary64 *)

Section RoundHalfEven.

Variables n d : Z.
Hypothesis Hd : 0 < d.

Lemma round_half_even_cases :
  round_half_even n d = n / d \/ round_half_even n d = n / d + 1.
Proof using Type.
  unfold round_half_even.
  destruct (2 * (n mod d) <? d); [left; reflexivity |].
  destruct (d <? 2 * (n mod d)); [right; reflexivity |].
  destruct (Z.even (n / d)); [left | right]; reflexivity.
Qed.

Lemma round_half_even_nonneg : 0 <= n -> 0 <= round_half_even n d.
Proof using Hd.
  intros Hn. pose proof (Z.div_pos n d Hn Hd).
  destruct round_half_even_cases as [-> | ->]; lia.
Qed.

(** The result is within half of [d] of [n]. *)
Lemma round_half_even_error :
  - d <= 2 * (round_half_even n d * d - n) <= d.
Proof using Hd.
  unfold round_half_even.
  pose proof (Z.div_mod n d ltac:(lia)) as Hdm.
  pose proof (Z.mod_pos_bound n d Hd) as Hm.
  destruct (Z.ltb_spec (2 * (n mod d)) d).
  - nia.
  - destruct (Z.ltb_spec d (2 * (n mod d))).
    + nia.
    + destruct (Z.even (n / d)); nia.
Qed.

(** A multiple of [d] is not moved. *)
Lemma round_half_even_exact (j : Z) :
  n = j * d -> round_half_even n d = j.
Proof using Hd.
  intros ->. unfold round_half_even.
  rewrite Z.mod_mul, Z.div_mul by lia.
  destruct (Z.ltb_spec (2 * 0) d); [reflexivity | lia].
Qed.

End RoundHalfEven.

Section RoundUnits.

Variables n d : Z.
Hypothesis Hn : 0 <= n.
Hypothesis Hd : 0 < d.

(** The number of low bits that [round_units] drops. *)
Let s : Z := Z.max 0 (Z.log2 (n / d) - 52).

Lemma round_units_fin_bound (k : Z) :
  round_units n d = Fin k -> k < overflow_units.
Proof using Type.
  unfold round_units.
  destruct (Z.leb_spec overflow_units
              (round_half_even n (d * 2 ^ Z.max 0 (Z.log2 (n / d) - 52))
               * 2 ^ Z.max 0 (Z.log2 (n / d) - 52))) as [Hle | Hlt];
    intros H; inversion H.
  subst k. exact Hlt.
Qed.

Lemma shift_pow_pos : 0 < 2 ^ s.
Proof using Type. apply Z.pow_pos_nonneg; unfold s; lia. Qed.

Lemma round_units_nonneg (k : Z) : round_units n d = Fin k -> 0 <= k.
Proof using Hn Hd.
  unfold round_units. fold s.
  pose proof shift_pow_pos as H2s.
  pose proof (round_half_even_nonneg n (d * 2 ^ s) ltac:(nia) Hn).
  destruct (overflow_units <=? _); intros H'; inversion H'. nia.
Qed.

(** The significand kept has at most 53 bits, or is 2^53. *)
Lemma round_units_significand : round_half_even n (d * 2 ^ s) <= 2 ^ 53.
Proof using Hn Hd.
  assert (Hs : 0 <= s) by (unfold s; lia).
  pose proof shift_pow_pos as H2s.
  pose proof (Z.div_pos n d Hn Hd) as Hq.
  assert (Hlt : n / d < 2 ^ (s + 53)).
  { destruct (Z.eq_dec (n / d) 0) as [-> | Hne].
    - apply Z.pow_pos_nonneg; lia.
    - pose proof (Z.log2_spec (n / d) ltac:(lia)) as [_ Hup].
      eapply Z.lt_le_trans; [exact Hup |].
      apply Z.pow_le_mono_r; unfold s; lia. }
  assert (Hdiv : n / (d * 2 ^ s) < 2 ^ 53).
  { rewrite <- Z.div_div by lia.
    apply Z.div_lt_upper_bound; [lia |].
    rewrite <- Z.pow_add_r by lia. exact Hlt. }
  destruct (round_half_even_cases n (d * 2 ^ s)) as [-> | ->]; lia.
Qed.

(** Below 2^1022 nothing overflows, and the result is the rounded
    significand shifted back. *)
Lemma round_units_value :
  n / d < 2 ^ 2096 ->
  round_units n d = Fin (round_half_even n (d * 2 ^ s) * 2 ^ s).
Proof using Hn Hd.
  intros Hq.
  pose proof round_units_significand as Hsig.
  unfold round_units. fold s.
  assert (Hs : 0 <= s <= 2043).
  { split; [unfold s; lia |].
    destruct (Z.eq_dec (n / d) 0) as [E | Hne].
    - unfold s. rewrite E. simpl. lia.
    - pose proof (Z.div_pos n d Hn Hd).
      assert (Z.log2 (n / d) < 2096) by (apply Z.log2_lt_pow2; lia).
      unfold s. lia. }
  pose proof shift_pow_pos as H2s.
  pose proof (round_half_even_nonneg n (d * 2 ^ s) ltac:(nia) Hn) as Hnn.
  assert (Hk : round_half_even n (d * 2 ^ s) * 2 ^ s < overflow_units).
  { unfold overflow_units.
    apply Z.le_lt_trans with (2 ^ 53 * 2 ^ s); [nia |].
    rewrite <- Z.pow_add_r by lia.
    apply Z.pow_lt_mono_r; lia. }
  destruct (Z.leb_spec overflow_units (round_half_even n (d * 2 ^ s) * 2 ^ s));
    [lia | reflexivity].
Qed.

Lemma round_units_finite :
  n / d < 2 ^ 2096 -> exists k, round_units n d = Fin k /\ 0 <= k.
Proof using Hn Hd.
  intros Hq. eexists. split; [apply round_units_value; exact Hq |].
  pose proof shift_pow_pos as H2s.
  pose proof (round_half_even_nonneg n (d * 2 ^ s) ltac:(nia) Hn).
  nia.
Qed.

End RoundUnits.

(** ** Floats read from strings *)

Lemma float_0_2_eq : float_0_2 = Fin (3602879701896397 * 2 ^ 1020).
Proof. vm_compute. reflexivity. Qed.

Lemma float_0_25_eq : float_0_25 = Fin (2 ^ 1072).
Proof. vm_compute. reflexivity. Qed.

Lemma span_digits_spec (s : list ascii) :
  forall ds rest, span_digits s = (ds, rest) ->
  s = (ds ++ rest)%list /\ forallb is_digit ds = true
  /\ match rest with c :: _ => is_digit c = false | [] => True end.
Proof.
  induction s as [| c r IH]; simpl; intros ds rest H.
  - inversion H. simpl. auto.
  - destruct (is_digit c) eqn:Hc.
    + destruct (span_digits r) as [ds' rest'] eqn:Hr. inversion H; subst.
      destruct (IH ds' rest eq_refl) as [-> [Hd Hrest]].
      simpl. rewrite Hc, Hd. auto.
    + inversion H; subst. simpl. auto.
Qed.

Lemma digits_value_acc (ds : list ascii) (acc : Z) :
  forallb is_digit ds = true -> 0 <= acc ->
  0 <= fold_left (fun a d => 10 * a + (ord d - 48)) ds acc.
Proof.
  revert acc. induction ds as [| d ds IH]; simpl; intros acc Hd Hacc.
  - exact Hacc.
  - apply andb_true_iff in Hd. destruct Hd as [Hd Hds].
    apply IH; [exact Hds |].
    unfold is_digit, between in Hd. lia.
Qed.

Lemma digits_value_nonneg (ds : list ascii) :
  forallb is_digit ds = true -> 0 <= digits_value ds.
Proof. intros H. apply digits_value_acc; [exact H | lia]. Qed.

Lemma round_signed_fin (neg : bool) (n d k : Z) :
  0 <= n -> 0 < d -> round_signed neg n d = Fin k ->
  Z.abs k < overflow_units /\ (neg = false -> 0 <= k).
Proof.
  intros Hn Hd. unfold round_signed.
  destruct (round_units n d) as [| b | k0] eqn:Hr; intros H; inversion H.
  pose proof (round_units_fin_bound _ _ _ Hr).
  pose proof (round_units_nonneg _ _ Hn Hd _ Hr).
  destruct neg; split; intros; try discriminate; lia.
Qed.

Lemma float_of_decimal_fin (neg : bool) (m e k : Z) :
  0 <= m -> float_of_decimal neg m e = Fin k ->
  Z.abs k < overflow_units /\ (neg = false -> 0 <= k).
Proof.
  intros Hm. unfold float_of_decimal, one_units.
  assert (0 < 2 ^ 1074) by (apply Z.pow_pos_nonneg; lia).
  destruct (Z.leb_spec 0 e); intros H'.
  - apply round_signed_fin in H'; [exact H' | | lia].
    assert (0 < 10 ^ e) by (apply Z.pow_pos_nonneg; lia). nia.
  - apply round_signed_fin in H'; [exact H' | nia |].
    apply Z.pow_pos_nonneg; lia.
Qed.

Lemma dg_strtod_fin (s rest : list ascii) (k : Z) :
  dg_strtod s = Some (Fin k, rest) -> Z.abs k < overflow_units.
Proof.
  unfold dg_strtod.
  destruct (parse_sign s) as [neg s1].
  destruct (span_digits s1) as [ip s2] eqn:Hip.
  apply span_digits_spec in Hip. destruct Hip as [_ [Hip _]].
  assert (Hfp : forall fp s3,
             match s2 with
             | c :: r => if Ascii.eqb c "." then span_digits r else ([], s2)
             | [] => ([], [])
             end = (fp, s3) -> forallb is_digit fp = true).
  { intros fp s3. destruct s2 as [| c r]; [intros H; inversion H; reflexivity |].
    destruct (Ascii.eqb c ".").
    - intros H. apply span_digits_spec in H. tauto.
    - intros H; inversion H; reflexivity. }
  destruct (match s2 with c :: r => _ | [] => _ end) as [fp s3] eqn:Hs3.
  specialize (Hfp fp s3 eq_refl).
  destruct (ip ++ fp)%list as [| a l] eqn:Hds; [discriminate |].
  destruct (parse_exponent s3) as [e s4].
  intros H. inversion H as [[Hx Hrest]].
  apply float_of_decimal_fin in Hx; [tauto |].
  apply digits_value_nonneg. rewrite <- Hds, forallb_app, Hip, Hfp. reflexivity.
Qed.

Lemma parse_inf_or_nan_not_fin (s rest : list ascii) (k : Z) :
  parse_inf_or_nan s <> Some (Fin k, rest).
Proof.
  unfold parse_inf_or_nan. repeat case_match_goal; congruence.
Qed.

Lemma float_of_str_fin (s : string) (k : Z) :
  float_of_str s = Ok (Fin k) -> Z.abs k < overflow_units.
Proof.
  unfold float_of_str.
  destruct (without_underscores _) as [t |]; [| discriminate].
  destruct (rev (lstrip_c (rev (lstrip_c t)))) as [| a u]; [discriminate |].
  unfold string_to_double.
  destruct (dg_strtod (a :: u)) as [[x rest] |] eqn:Hd.
  - destruct rest; [| discriminate]. intros H; inversion H; subst.
    eapply dg_strtod_fin; eassumption.
  - destruct (parse_inf_or_nan (a :: u)) as [[x rest] |] eqn:Hp; [| discriminate].
    destruct rest; [| discriminate]. intros H; inversion H; subst.
    exfalso. eapply parse_inf_or_nan_not_fin; eassumption.
Qed.

Lemma fmul_small_finite (k c : Z) :
  0 <= k < overflow_units -> 0 < c < 2 ^ 1072 ->
  exists k', fmul (Fin k) (Fin c) = Fin k' /\ 0 <= k'.
Proof.
  intros Hk Hc. unfold fmul.
  destruct (Z.ltb_spec k 0); [lia |]. destruct (Z.ltb_spec c 0); [lia |].
  simpl xorb. rewrite !Z.abs_eq by lia.
  assert (HU : 0 < one_units) by (apply Z.pow_pos_nonneg; lia).
  destruct (round_units_finite (k * c) one_units) as [k' [Hr Hk']];
    [nia | exact HU | | ].
  - apply Z.div_lt_upper_bound; [exact HU |].
    unfold overflow_units in Hk. unfold one_units.
    replace (2 ^ 1074 * 2 ^ 2096) with (2 ^ 2098 * 2 ^ 1072)
      by (rewrite <- !Z.pow_add_r by lia; reflexivity).
    nia.
  - exists k'. unfold round_signed. rewrite Hr. auto.
Qed.

Lemma fmul_0_2_finite (k : Z) :
  0 <= k < overflow_units ->
  exists k', fmul (Fin k) float_0_2 = Fin k' /\ 0 <= k'.
Proof.
  intros Hk. rewrite float_0_2_eq. apply fmul_small_finite; [exact Hk |].
  split.
  - apply Z.mul_pos_pos; [lia | apply Z.pow_pos_nonneg; lia].
  - change (2 ^ 1072) with (2 ^ (52 + 1020)). rewrite Z.pow_add_r by lia.
    apply Z.mul_lt_mono_pos_r; [apply Z.pow_pos_nonneg; lia | reflexivity].
Qed.

Lemma ceil_nonneg (k : Z) : 0 <= k -> exists c, ceil (Fin k) = Ok c /\ 0 <= c.
Proof.
  intros Hk. simpl. eexists. split; [reflexivity |].
  assert (HU : 0 < one_units) by (apply Z.pow_pos_nonneg; lia).
  assert (- k / one_units <= 0); [| lia].
  apply Z.div_le_upper_bound; lia.
Qed.

(** ** The points as a sum *)

Lemma item_points_shift (item : Item) (p q : Z) :
  item_points (p + q) item = (do x <- item_points p item ;; Ok (x + q)).
Proof.
  unfold item_points.
  unfold bind.
  destruct (float_of_str (price item)) as [x |]; [| reflexivity].
  destruct (len (strip (shortDescription item)) mod 3 =? 0); [| reflexivity].
  destruct (ceil (fmul x float_0_2)) as [c |]; [| reflexivity].
  f_equal. lia.
Qed.

Lemma for_items_shift (l : list Item) (p q : Z) :
  for_items (p + q) l = (do x <- for_items p l ;; Ok (x + q)).
Proof.
  revert p. induction l as [| item rest IH]; intros p; simpl.
  - reflexivity.
  - rewrite item_points_shift.
    destruct (item_points p item) as [x |]; simpl; [apply IH | reflexivity].
Qed.

Lemma calculate_points_total_rules (receipt : Receipt) :
  calculate_points receipt
  = (do x <- float_of_str (total receipt) ;;
     do m <- float_rem x float_0_25 ;;
     do rest <- points_of_other_rules receipt ;;
     Ok (rest + (if is_integer x then 50 else 0)
         + (if feq m float_0 then 25 else 0))).
Proof.
  unfold calculate_points, points_of_other_rules, bind.
  destruct (float_of_str (total receipt)) as [x |]; [| reflexivity].
  destruct (float_rem x float_0_25) as [m |]; [| reflexivity].
  cbv zeta.
  set (b := (if is_integer x then 50 else 0) + (if feq m float_0 then 25 else 0)).
  set (p0 := 0 + count_alnum (retailer receipt)
             + Z.of_nat (length (items receipt)) / 2 * 5).
  match goal with
  | |- context [for_items ?p (items receipt)] =>
      replace p with (p0 + b)
        by (unfold p0, b; destruct (is_integer x); destruct (feq m float_0); lia)
  end.
  rewrite for_items_shift.
  unfold bind.
  destruct (for_items p0 (items receipt)) as [p |]; [| reflexivity].
  destruct (strptime_Ymd (purchaseDate receipt)) as [d |]; [| reflexivity].
  destruct (strptime_HM (purchaseTime receipt)) as [t |]; [| reflexivity].
  f_equal. unfold b.
  destruct (day d mod 2 =? 1); destruct ((14 <=? hour t) && (hour t <? 16));
    destruct (is_integer x); destruct (feq m float_0); lia.
Qed.

Lemma points_of_other_rules_sum (receipt : Receipt) :
  points_of_other_rules receipt
  = (do c5 <- for_items 0 (items receipt) ;;
     do d <- strptime_Ymd (purchaseDate receipt) ;;
     do t <- strptime_HM (purchaseTime receipt) ;;
     Ok (count_alnum (retailer receipt)
         + Z.of_nat (length (items receipt)) / 2 * 5
         + c5
         + (if day d mod 2 =? 1 then 6 else 0)
         + afternoon t)).
Proof.
  unfold points_of_other_rules. cbv zeta.
  rewrite !for_items_shift. unfold bind, afternoon.
  destruct (for_items 0 (items receipt)) as [c5 |]; [| reflexivity].
  destruct (strptime_Ymd (purchaseDate receipt)) as [d |]; [| reflexivity].
  destruct (strptime_HM (purchaseTime receipt)) as [t |]; [| reflexivity].
  f_equal.
  destruct (day d mod 2 =? 1); destruct ((14 <=? hour t) && (hour t <? 16)); lia.
Qed.

(** ** The points are defined and not negative *)

Lemma float_rem_0_25_ok (x : float) : exists m, float_rem x float_0_25 = Ok m.
Proof.
  unfold float_rem. rewrite float_0_25_eq.
  change (feq (Fin (2 ^ 1072)) float_0) with (2 ^ 1072 =? 0).
  destruct (Z.eqb_spec (2 ^ 1072) 0) as [E | _].
  - pose proof (Z.pow_pos_nonneg 2 1072). lia.
  - repeat case_match_goal; eauto.
Qed.

Lemma item_points_nonneg (points : Z) (item : Item) :
  Item_validate item = Ok item -> price_finite item ->
  exists q, item_points points item = Ok q /\ points <= q.
Proof.
  intros Hv [k Hk].
  destruct (Item_validate_cases item) as [[_ [_ Hp]] | Hraise]; [| congruence].
  destruct (validate_price_cases (price item)) as [[_ [x [Hx [Hneg _]]]] | [msg Hmsg]];
    [| congruence].
  rewrite Hk in Hx. inversion Hx; subst x.
  apply float_of_str_fin in Hk as Hbound.
  unfold flt, float_0 in Hneg. apply Z.ltb_ge in Hneg.
  unfold item_points. rewrite Hk. unfold bind at 1.
  destruct (len (strip (shortDescription item)) mod 3 =? 0).
  - destruct (fmul_0_2_finite k ltac:(lia)) as [k' [Hm Hk']]. rewrite Hm.
    destruct (ceil_nonneg k' Hk') as [c [Hc Hc0]]. rewrite Hc.
    exists (points + c). split; [reflexivity | lia].
  - exists points. split; [reflexivity | lia].
Qed.

Lemma for_items_nonneg (l : list Item) :
  List.Forall (fun item => Item_validate item = Ok item) l ->
  List.Forall price_finite l ->
  forall points, exists q, for_items points l = Ok q /\ points <= q.
Proof.
  induction l as [| item rest IH]; intros Hv Hf points.
  - exists points. split; [reflexivity | lia].
  - inversion Hv; subst. inversion Hf; subst.
    destruct (item_points_nonneg points item) as [q [Hq Hle]]; [assumption .. |].
    destruct (IH ltac:(assumption) ltac:(assumption) q) as [q' [Hq' Hle']].
    exists q'. simpl. rewrite Hq. simpl. split; [exact Hq' | lia].
Qed.

Lemma count_alnum_nonneg (s : string) : 0 <= count_alnum s.
Proof. unfold count_alnum. lia. Qed.

(** C5, as stated, fails: the receipt dated 2022-02-30 passes every
    validator, and the points computation raises an error on it instead of
    returning a number. *)
Lemma february_30_not_scored : ~ points_defined_nonneg february_30_receipt.
Proof.
  intros H. destruct H as [n [Hn _]]; [vm_compute; reflexivity |].
  apply points_need_date_and_time in Hn. destruct Hn as [[d Hd] _].
  vm_compute in Hd. discriminate.
Qed.

(** A price of 400 digits passes the validator, is read as an infinity, and
    makes [math.ceil] raise an OverflowError. *)
Lemma huge_price_overflows :
  Receipt_validate huge_price_receipt = Ok huge_price_receipt
  /\ exists msg, calculate_points huge_price_receipt = Raise (OverflowError msg).
Proof.
  split; [vm_compute; reflexivity | eexists; vm_compute; reflexivity].
Qed.

(** C5, amended: for every receipt that has passed all validator checks,
    whose purchaseDate and purchaseTime are parsed by [strptime] and whose
    item prices are read as finite floats, the points computation returns an
    integer that is not negative: the sum of the seven contributions, none
    of which is negative. *)
Theorem points_nonneg (receipt : Receipt) :
  Receipt_validate receipt = Ok receipt ->
  (exists d, strptime_Ymd (purchaseDate receipt) = Ok d) ->
  (exists t, strptime_HM (purchaseTime receipt) = Ok t) ->
  List.Forall price_finite (items receipt) ->
  exists n, calculate_points receipt = Ok n /\ 0 <= n
            /\ seven_contributions receipt n.
Proof.
  intros Hv [d Hd] [t Ht] Hf.
  destruct (Receipt_validate_cases receipt) as [[_ [_ [Hi Htot]]] | Hraise];
    [| congruence].
  unfold validate_total in Htot.
  destruct (validate_price_cases (total receipt)) as [[_ [x [Hx _]]] | [msg Hmsg]];
    [| congruence].
  destruct (float_rem_0_25_ok x) as [m Hm].
  destruct (for_items_nonneg (items receipt) Hi Hf 0) as [c5 [Hc5 Hc50]].
  pose proof (count_alnum_nonneg (retailer receipt)) as Hc1.
  assert (Hc4 : 0 <= Z.of_nat (length (items receipt)) / 2 * 5).
  { assert (0 <= Z.of_nat (length (items receipt)) / 2) by (apply Z.div_pos; lia).
    lia. }
  rewrite calculate_points_total_rules, Hx. unfold bind at 1.
  rewrite Hm. unfold bind at 1.
  rewrite points_of_other_rules_sum, Hc5. unfold bind at 2.
  rewrite Hd. unfold bind at 2. rewrite Ht. unfold bind.
  eexists. split; [reflexivity |].
  assert (H6 : (if day d mod 2 =? 1 then 6 else 0) = 0
               \/ (if day d mod 2 =? 1 then 6 else 0) = 6)
    by (destruct (day d mod 2 =? 1); auto).
  assert (H7 : afternoon t = 0 \/ afternoon t = 10)
    by (unfold afternoon; destruct ((14 <=? hour t) && (hour t <? 16)); auto).
  assert (H2 : (if is_integer x then 50 else 0) = 0
               \/ (if is_integer x then 50 else 0) = 50)
    by (destruct (is_integer x); auto).
  assert (H3 : (if feq m float_0 then 25 else 0) = 0
               \/ (if feq m float_0 then 25 else 0) = 25)
    by (destruct (feq m float_0); auto).
  split; [lia |].
  exists (count_alnum (retailer receipt)), (if is_integer x then 50 else 0),
    (if feq m float_0 then 25 else 0),
    (Z.of_nat (length (items receipt)) / 2 * 5), c5,
    (if day d mod 2 =? 1 then 6 else 0), (afternoon t).
  repeat split; auto; lia.
Qed.

Lemma points_nonneg_witness :
  exists n, calculate_points target_receipt = Ok n /\ 0 <= n
            /\ seven_contributions target_receipt n.
Proof.
  apply (points_nonneg target_receipt).
  - vm_compute. reflexivity.
  - eexists. vm_compute. reflexivity.
  - eexists. vm_compute. reflexivity.
  - repeat constructor; eexists; vm_compute; reflexivity.
Defined.

(** ** The rules on total *)

Lemma eqb_0_iff (a b : Z) : (a = 0 <-> b = 0) -> (a =? 0) = (b =? 0).
Proof.
  intros H. destruct (Z.eqb_spec a 0), (Z.eqb_spec b 0); tauto.
Qed.

(** Below 2^47 a decimal with two places rounds to a float that is a whole
    number, or a multiple of a quarter, exactly when the decimal is. *)
Lemma decimal_cents_tests (cents : Z) :
  0 <= cents < 100 * 2 ^ 47 ->
  exists k, float_of_decimal false cents (-2) = Fin k /\ 0 <= k
    /\ (k mod one_units = 0 <-> cents mod 100 = 0)
    /\ (k mod 2 ^ 1072 = 0 <-> cents mod 25 = 0).
Proof.
  intros Hc. unfold float_of_decimal.
  change (0 <=? -2) with false. change (10 ^ (- -2)) with 100. cbv iota.
  unfold round_signed, one_units.
  assert (HU : 0 < 2 ^ 1074) by (apply Z.pow_pos_nonneg; lia).
  set (n := cents * 2 ^ 1074).
  assert (Hn : 0 <= n) by (unfold n; nia).
  assert (Hq : n / 100 < 2 ^ 1121).
  { apply Z.div_lt_upper_bound; [lia |]. unfold n.
    change 1121 with (47 + 1074). rewrite Z.pow_add_r by lia. nia. }
  assert (Hq0 : 0 <= n / 100) by (apply Z.div_pos; lia).
  rewrite round_units_value; [| exact Hn | lia |].
  2:{ eapply Z.lt_trans; [exact Hq |]. apply Z.pow_lt_mono_r; lia. }
  cbv zeta.
  set (s := Z.max 0 (Z.log2 (n / 100) - 52)).
  assert (Hs : 0 <= s <= 1068).
  { split; [lia |].
    destruct (Z.eq_dec (n / 100) 0) as [E | Hne].
    - unfold s. rewrite E. simpl. lia.
    - assert (Z.log2 (n / 100) < 1121) by (apply Z.log2_lt_pow2; lia).
      lia. }
  set (P := 2 ^ s).
  assert (HP : 0 < P) by (apply Z.pow_pos_nonneg; lia).
  set (T := 2 ^ (1072 - s)).
  assert (HT : 16 <= T).
  { change 16 with (2 ^ 4). apply Z.pow_le_mono_r; lia. }
  assert (HW : 2 ^ 1072 = T * P).
  { unfold T, P. rewrite <- Z.pow_add_r by lia. f_equal. lia. }
  assert (HUW : 2 ^ 1074 = 4 * (T * P)).
  { rewrite <- HW. change 1074 with (2 + 1072).
    rewrite Z.pow_add_r by lia. reflexivity. }
  set (r := round_half_even n (100 * P)).
  pose proof (round_half_even_error n (100 * P) ltac:(lia)) as Herr.
  fold r in Herr.
  assert (Hn' : n = cents * (4 * (T * P))) by (unfold n; rewrite HUW; reflexivity).
  assert (Herr' : -100 <= 2 * (100 * r - 4 * cents * T) <= 100) by nia.
  assert (Hr0 : 0 <= r) by (apply round_half_even_nonneg; lia).
  exists (r * P). split; [reflexivity |]. split; [nia |].
  rewrite HUW, HW. split.
  - rewrite !Z.mod_divide by lia. split.
    + intros [j Hj]. exists j.
      assert (r = j * 4 * T) by nia. subst r. nia.
    + intros [j Hj]. exists j.
      assert (Hex : r = j * 4 * T).
      { unfold r. apply round_half_even_exact; [lia |].
        rewrite Hn', Hj. ring. }
      rewrite Hex. ring.
  - rewrite !Z.mod_divide by lia. split.
    + intros [j Hj]. exists j.
      assert (r = j * T) by nia. subst r. nia.
    + intros [j Hj]. exists j.
      assert (Hex : r = j * T).
      { unfold r. apply round_half_even_exact; [lia |].
        rewrite Hn', Hj. ring. }
      rewrite Hex. ring.
Qed.

Lemma float_rem_quarter (k : Z) :
  0 <= k ->
  exists m, float_rem (Fin k) float_0_25 = Ok m
            /\ feq m float_0 = (k mod 2 ^ 1072 =? 0).
Proof.
  intros Hk. rewrite float_0_25_eq.
  assert (HW : 0 < 2 ^ 1072) by (apply Z.pow_pos_nonneg; lia).
  unfold float_rem, fmod, feq, flt, float_0.
  rewrite Z.rem_mod_nonneg by lia.
  pose proof (Z.mod_pos_bound k (2 ^ 1072) HW) as Hv.
  destruct (Z.eqb_spec (2 ^ 1072) 0) as [E | _]; [lia |].
  destruct (Z.eqb_spec (k mod 2 ^ 1072) 0) as [E | Hne]; simpl negb; cbv iota.
  - exists (Fin 0). split; [reflexivity |]. reflexivity.
  - destruct (Z.ltb_spec (2 ^ 1072) 0); [lia |].
    destruct (Z.ltb_spec (k mod 2 ^ 1072) 0); [lia |].
    simpl. exists (Fin (k mod 2 ^ 1072)). split; [reflexivity |].
    apply Z.eqb_neq. exact Hne.
Qed.

Lemma digit_char_facts (c : ascii) :
  is_digit c = true ->
  Py_ISSPACE c = false /\ is_underscore c = false
  /\ Ascii.eqb c "-" = false /\ Ascii.eqb c "+" = false
  /\ Ascii.eqb c "." = false /\ (ord c <? 128) = true.
Proof.
  destruct c as [[] [] [] [] [] [] [] []]; vm_compute; intros H;
    try discriminate H; repeat split.
Qed.

Lemma span_digits_app (ds rest : list ascii) :
  forallb is_digit ds = true ->
  match rest with c :: _ => is_digit c = false | [] => True end ->
  span_digits (ds ++ rest) = (ds, rest).
Proof.
  intros Hds Hrest. induction ds as [| d ds IH]; simpl.
  - destruct rest as [| c r]; [reflexivity |]. simpl. rewrite Hrest. reflexivity.
  - simpl in Hds. apply andb_true_iff in Hds. destruct Hds as [Hd Hds].
    rewrite Hd, (IH Hds). reflexivity.
Qed.

Lemma forallb_rev {A : Type} (f : A -> bool) (l : list A) :
  forallb f (rev l) = forallb f l.
Proof.
  induction l as [| a l IH]; simpl; [reflexivity |].
  rewrite forallb_app, IH. simpl. rewrite andb_true_r. apply andb_comm.
Qed.

Lemma money_cents_shape (s : string) (cents : Z) :
  money_cents s = Some cents ->
  exists (d : ascii) (ds : list ascii) (c1 c2 : ascii),
    chars s = ((d :: ds) ++ "."%char :: [c1; c2])%list
    /\ forallb is_digit (d :: ds) = true
    /\ is_digit c1 = true /\ is_digit c2 = true
    /\ cents = digits_value ((d :: ds) ++ [c1; c2]).
Proof.
  unfold money_cents. intros H.
  destruct (rev (chars s)) as [| c2 [| c1 [| p [| d0 ds0]]]] eqn:Hrev;
    try discriminate.
  destruct (Ascii.eqb p ".") eqn:Hp; [| discriminate].
  destruct (forallb is_digit (c2 :: c1 :: d0 :: ds0)) eqn:Hd; [| discriminate].
  apply Ascii.eqb_eq in Hp. subst p. inversion H as [Hc]. clear H.
  simpl in Hd. apply andb_true_iff in Hd. destruct Hd as [H2 Hd].
  apply andb_true_iff in Hd. destruct Hd as [H1 Hd].
  assert (Hchars : chars s = (rev (d0 :: ds0) ++ "."%char :: [c1; c2])%list).
  { rewrite <- (rev_involutive (chars s)), Hrev. simpl.
    rewrite <- !app_assoc. reflexivity. }
  assert (HD : forallb is_digit (rev (d0 :: ds0)) = true).
  { rewrite forallb_rev. exact Hd. }
  remember (rev (d0 :: ds0)) as D eqn:HrevD.
  destruct D as [| d ds].
  - apply (f_equal (@length ascii)) in HrevD. rewrite length_rev in HrevD.
    discriminate.
  - exists d, ds, c1, c2. repeat split; auto.
    rewrite HrevD. reflexivity.
Qed.

Lemma lstrip_c_digit (c : ascii) (r : list ascii) :
  is_digit c = true -> lstrip_c (c :: r) = c :: r.
Proof.
  intros H. apply digit_char_facts in H. destruct H as [H _].
  simpl. rewrite H. reflexivity.
Qed.

Lemma lstrip_c_rev_digit (l : list ascii) (c : ascii) :
  is_digit c = true -> lstrip_c (rev (l ++ [c])) = rev (l ++ [c]).
Proof.
  intros H. rewrite rev_app_distr. simpl. apply (lstrip_c_digit c _ H).
Qed.

Lemma float_of_str_money (s : string) (cents : Z) :
  money_cents s = Some cents ->
  float_of_str s = Ok (float_of_decimal false cents (-2)).
Proof.
  intros H. apply money_cents_shape in H.
  destruct H as [d [ds [c1 [c2 [Hchars [HD [H1 [H2 Hcents]]]]]]]].
  assert (Hall : forall c, In c (chars s) -> is_digit c = true \/ c = "."%char).
  { intros c Hin. rewrite Hchars in Hin. apply in_app_or in Hin.
    destruct Hin as [Hin | [<- | [<- | [<- | []]]]]; auto.
    left. rewrite List.forallb_forall in HD. apply HD. exact Hin. }
  unfold float_of_str.
  assert (Hascii : to_ascii_text (chars s) = chars s).
  { unfold to_ascii_text.
    replace (forallb (fun c => ord c <? 128) (chars s)) with true; [reflexivity |].
    symmetry. apply List.forallb_forall. intros c Hin.
    destruct (Hall c Hin) as [Hc | ->]; [| reflexivity].
    apply digit_char_facts in Hc. tauto. }
  assert (Hund : without_underscores (chars s) = Some (chars s)).
  { unfold without_underscores.
    replace (existsb is_underscore (chars s)) with false; [reflexivity |].
    symmetry. apply not_true_is_false. intros Hex.
    apply existsb_exists in Hex. destruct Hex as [c [Hin Hc]].
    destruct (Hall c Hin) as [Hd | ->]; [| discriminate].
    apply digit_char_facts in Hd. destruct Hd as [_ [Hd _]]. congruence. }
  rewrite Hascii, Hund.
  assert (Hstrip : rev (lstrip_c (rev (lstrip_c (chars s)))) = chars s).
  { assert (Hd : is_digit d = true).
    { simpl in HD. apply andb_true_iff in HD. tauto. }
    assert (Hlast : chars s = ((d :: ds ++ ["."%char; c1]) ++ [c2])%list).
    { rewrite Hchars. simpl. rewrite <- app_assoc. reflexivity. }
    rewrite Hlast at 1. simpl app at 1. rewrite (lstrip_c_digit d _ Hd).
    change (d :: ((ds ++ ["."%char; c1]) ++ [c2])%list)
      with ((d :: ds ++ ["."%char; c1]) ++ [c2])%list.
    rewrite lstrip_c_rev_digit by exact H2.
    rewrite rev_involutive. symmetry. exact Hlast. }
  rewrite Hstrip, Hchars. simpl app at 1.
  unfold string_to_double, dg_strtod.
  assert (Hsign : parse_sign (d :: (ds ++ "."%char :: [c1; c2])%list)
                  = (false, (d :: ds) ++ "."%char :: [c1; c2])%list).
  { simpl in HD. apply andb_true_iff in HD. destruct HD as [Hd _].
    apply digit_char_facts in Hd. destruct Hd as [_ [_ [Hm [Hp _]]]].
    unfold parse_sign. rewrite Hm, Hp. reflexivity. }
  rewrite Hsign.
  rewrite (span_digits_app (d :: ds) ("."%char :: [c1; c2]) HD eq_refl).
  change (Ascii.eqb "." ".") with true. cbv iota.
  assert (Hfp : span_digits [c1; c2] = ([c1; c2], []))
    by (simpl; rewrite H1, H2; reflexivity).
  rewrite Hfp.
  simpl app at 1. simpl parse_exponent. cbv iota beta.
  rewrite Hcents. reflexivity.
Qed.

Lemma money_cents_nonneg (s : string) (cents : Z) :
  money_cents s = Some cents -> 0 <= cents.
Proof.
  intros H. apply money_cents_shape in H.
  destruct H as [d [ds [c1 [c2 [_ [HD [H1 [H2 ->]]]]]]]].
  apply digits_value_nonneg. rewrite forallb_app, HD. simpl.
  rewrite H1, H2. reflexivity.
Qed.

(** C4, as stated, fails: the total 140737488355328.26 is not a multiple of
    0.25, but it is read as the float 140737488355328.25, and the receipt
    gets the 25 points of rule 3. *)
Lemma large_total_rounded_to_quarter : ~ total_bonus_exact large_total_receipt.
Proof.
  intros H.
  assert (Hv : Receipt_validate large_total_receipt = Ok large_total_receipt)
    by (vm_compute; reflexivity).
  assert (Hm : money_cents (total large_total_receipt) = Some 14073748835532826)
    by (vm_compute; reflexivity).
  assert (Ho : points_of_other_rules large_total_receipt = Ok 28)
    by (vm_compute; reflexivity).
  assert (Hc : calculate_points large_total_receipt = Ok 53)
    by (vm_compute; reflexivity).
  specialize (H Hv _ _ Hm Ho). rewrite Hc in H.
  change (exact_total_bonus 14073748835532826) with 0 in H.
  injection H as H. lia.
Qed.

(** C4, amended: rules 2 and 3 test the binary64 value of total: +50 when
    that float is a whole number, +25 when its float remainder by 0.25 is
    zero.  For a total written as digits, a point and two digits, and below
    2^47 = 140737488355328, this is +50 exactly when the total has zero
    cents and +25 exactly when it is a multiple of 0.25, as exact decimal
    comparison gives; the total "100.00" receives both, +75. *)
Theorem total_rules_on_float :
  (forall (receipt : Receipt) (x m : float) (rest : Z),
      float_of_str (total receipt) = Ok x ->
      float_rem x float_0_25 = Ok m ->
      points_of_other_rules receipt = Ok rest ->
      calculate_points receipt
      = Ok (rest + (if is_integer x then 50 else 0)
            + (if feq m float_0 then 25 else 0)))
  /\ (forall (receipt : Receipt) (cents rest : Z),
      money_cents (total receipt) = Some cents ->
      cents < 100 * 2 ^ 47 ->
      points_of_other_rules receipt = Ok rest ->
      calculate_points receipt = Ok (rest + exact_total_bonus cents))
  /\ (forall (receipt : Receipt) (rest : Z),
      total receipt = "100.00" ->
      points_of_other_rules receipt = Ok rest ->
      calculate_points receipt = Ok (rest + 50 + 25)).
Proof.
  assert (Hfloat : forall (receipt : Receipt) (x m : float) (rest : Z),
      float_of_str (total receipt) = Ok x ->
      float_rem x float_0_25 = Ok m ->
      points_of_other_rules receipt = Ok rest ->
      calculate_points receipt
      = Ok (rest + (if is_integer x then 50 else 0)
            + (if feq m float_0 then 25 else 0))).
  { intros receipt x m rest Hx Hm Hrest.
    rewrite calculate_points_total_rules, Hx. unfold bind at 1.
    rewrite Hm. unfold bind at 1. rewrite Hrest. reflexivity. }
  assert (Hcents : forall (receipt : Receipt) (cents rest : Z),
      money_cents (total receipt) = Some cents ->
      cents < 100 * 2 ^ 47 ->
      points_of_other_rules receipt = Ok rest ->
      calculate_points receipt = Ok (rest + exact_total_bonus cents)).
  { intros receipt cents rest Hmoney Hlt Hrest.
    pose proof (money_cents_nonneg _ _ Hmoney) as H0.
    destruct (decimal_cents_tests cents ltac:(lia)) as [k [Hk [Hk0 [Hint Hq]]]].
    destruct (float_rem_quarter k Hk0) as [m [Hm Hfeq]].
    apply float_of_str_money in Hmoney. rewrite Hk in Hmoney.
    rewrite (Hfloat receipt (Fin k) m rest Hmoney Hm Hrest).
    unfold is_integer. rewrite Hfeq.
    rewrite (eqb_0_iff _ _ Hint), (eqb_0_iff _ _ Hq).
    unfold exact_total_bonus. f_equal. lia. }
  split; [exact Hfloat |]. split; [exact Hcents |].
  intros receipt rest Ht Hrest.
  rewrite (Hcents receipt 10000 rest); [| rewrite Ht; reflexivity | reflexivity | exact Hrest].
  f_equal. change (exact_total_bonus 10000) with 75. lia.
Qed.

Lemma total_rules_on_float_witness :
  calculate_points round_total_receipt = Ok (28 + exact_total_bonus 10000).
Proof.
  refine (proj1 (proj2 total_rules_on_float) round_total_receipt 10000 28 _ _ _).
  - reflexivity.
  - reflexivity.
  - vm_compute. reflexivity.
Defined.

(** ** The price validator *)

Lemma split_chars_no_sep (sep : ascii) (l : list ascii) :
  forallb (fun c => negb (Ascii.eqb c sep)) l = true ->
  split_chars sep l = [l].
Proof.
  induction l as [| c l IH]; simpl; intros H; [reflexivity |].
  apply andb_true_iff in H. destruct H as [Hc Hl].
  apply negb_true_iff in Hc. rewrite Hc, (IH Hl). reflexivity.
Qed.

Lemma split_chars_app (sep : ascii) (l r : list ascii) :
  forallb (fun c => negb (Ascii.eqb c sep)) l = true ->
  split_chars sep (l ++ sep :: r) = l :: split_chars sep r.
Proof.
  induction l as [| c l IH]; simpl; intros H.
  - rewrite Ascii.eqb_refl. reflexivity.
  - apply andb_true_iff in H. destruct H as [Hc Hl].
    apply negb_true_iff in Hc. rewrite Hc, (IH Hl). reflexivity.
Qed.

Lemma digits_have_no_point (ds : list ascii) :
  forallb is_digit ds = true ->
  forallb (fun c => negb (Ascii.eqb c ".")) ds = true.
Proof.
  rewrite !List.forallb_forall. intros H c Hin.
  apply H, digit_char_facts in Hin. destruct Hin as [_ [_ [_ [_ [Hp _]]]]].
  rewrite Hp. reflexivity.
Qed.

Lemma money_tail_length (s : string) (cents : Z) :
  money_cents s = Some cents -> len (last_item (split s ".")) = 2.
Proof.
  intros H. apply money_cents_shape in H.
  destruct H as [d [ds [c1 [c2 [Hchars [HD [H1 [H2 _]]]]]]]].
  unfold split. rewrite Hchars.
  rewrite split_chars_app by (apply digits_have_no_point; exact HD).
  rewrite split_chars_no_sep
    by (apply digits_have_no_point; simpl; rewrite H1, H2; reflexivity).
  reflexivity.
Qed.

Lemma float_of_decimal_not_negative (m e : Z) :
  0 <= m -> flt (float_of_decimal false m e) float_0 = false.
Proof.
  intros Hm.
  destruct (float_of_decimal false m e) as [| neg | k] eqn:Hx.
  - reflexivity.
  - unfold float_of_decimal, round_signed in Hx.
    destruct (0 <=? e); destruct (round_units _ _); inversion Hx; reflexivity.
  - apply float_of_decimal_fin in Hx; [| exact Hm]. destruct Hx as [_ Hk].
    unfold flt, float_0. apply Z.ltb_ge. apply Hk. reflexivity.
Qed.

Lemma money_format_accepted (s : string) (cents : Z) :
  money_cents s = Some cents -> validate_price s = Ok s.
Proof.
  intros H. unfold validate_price.
  rewrite (float_of_str_money s cents H). unfold bind at 2.
  rewrite (float_of_decimal_not_negative cents (-2) (money_cents_nonneg s cents H)).
  rewrite (money_tail_length s cents H). reflexivity.
Qed.

(** C2: the validator shared by price and total accepts every string made
    of digits, a point and two digits, such as "19.99", and rejects "19.9"
    and "19.999"; but it also accepts "12", which has no decimal point, and
    "1.e5", whose two characters after the point are not two digits. *)
Theorem price_without_point_accepted :
  (forall (s : string) (cents : Z),
      money_cents s = Some cents ->
      validate_price s = Ok s /\ validate_total s = Ok s)
  /\ validate_price "19.99" = Ok "19.99"
  /\ (exists msg, validate_price "19.9" = Raise (ValueError msg))
  /\ (exists msg, validate_price "19.999" = Raise (ValueError msg))
  /\ validate_price "12" = Ok "12"
  /\ validate_total "12" = Ok "12"
  /\ validate_price "1.e5" = Ok "1.e5".
Proof.
  split.
  - intros s cents H. split; apply (money_format_accepted s cents H).
  - repeat split; try (eexists; vm_compute; reflexivity);
      vm_compute; reflexivity.
Qed.

Lemma price_without_point_accepted_witness :
  validate_price "19.99" = Ok "19.99" /\ validate_total "19.99" = Ok "19.99".
Proof.
  refine (proj1 price_without_point_accepted "19.99" 1999 _).
  reflexivity.
Defined.

(** ** The bonus of a blank description *)

Lemma for_items_app (l1 l2 : list Item) (p : Z) :
  for_items p (l1 ++ l2) = (do q <- for_items p l1 ;; for_items q l2).
Proof.
  revert p. induction l1 as [| item rest IH]; intros p; simpl; [reflexivity |].
  destruct (item_points p item) as [q |]; simpl; [apply IH | reflexivity].
Qed.

Lemma fmul_0_2_fin (k : Z) :
  Z.abs k < overflow_units -> exists k', fmul (Fin k) float_0_2 = Fin k'.
Proof.
  intros Hk. rewrite float_0_2_eq. unfold fmul.
  set (c := 3602879701896397 * 2 ^ 1020).
  assert (Hc : 0 < c < 2 ^ 1072).
  { unfold c. split.
    - apply Z.mul_pos_pos; [lia | apply Z.pow_pos_nonneg; lia].
    - change (2 ^ 1072) with (2 ^ (52 + 1020)). rewrite Z.pow_add_r by lia.
      apply Z.mul_lt_mono_pos_r; [apply Z.pow_pos_nonneg; lia | reflexivity]. }
  rewrite (Z.abs_eq c) by lia.
  assert (HU : 0 < one_units) by (apply Z.pow_pos_nonneg; lia).
  pose proof (Z.abs_nonneg k) as Ha.
  destruct (round_units_finite (Z.abs k * c) one_units) as [k' [Hr Hk']];
    [apply Z.mul_nonneg_nonneg; lia | exact HU | |].
  - apply Z.div_lt_upper_bound; [exact HU |].
    unfold overflow_units in Hk. unfold one_units.
    replace (2 ^ 1074 * 2 ^ 2096) with (2 ^ 2098 * 2 ^ 1072)
      by (rewrite <- !Z.pow_add_r by lia; reflexivity).
    assert (Z.abs k * c <= Z.abs k * 2 ^ 1072)
      by (apply Z.mul_le_mono_nonneg_l; lia).
    assert (Z.abs k * 2 ^ 1072 < 2 ^ 2098 * 2 ^ 1072)
      by (apply Z.mul_lt_mono_pos_r; [apply Z.pow_pos_nonneg; lia | exact Hk]).
    lia.
  - unfold round_signed. rewrite Hr. eauto.
Qed.

(** The bonus of an item of blank description whose price is finite. *)
Lemma blank_item_points (item : Item) :
  strip (shortDescription item) = "" -> price_finite item ->
  exists (p : float) (c : Z),
    float_of_str (price item) = Ok p /\ ceil (fmul p float_0_2) = Ok c
    /\ forall points, item_points points item = Ok (points + c).
Proof.
  intros Hs [k Hk]. apply float_of_str_fin in Hk as Hbound.
  destruct (fmul_0_2_fin k Hbound) as [k' Hk'].
  exists (Fin k), (- (- k' / one_units)).
  split; [exact Hk |]. split; [rewrite Hk'; reflexivity |].
  intros points. unfold item_points. rewrite Hk. unfold bind at 1. rewrite Hs.
  change (len "" mod 3 =? 0) with true. cbv iota. rewrite Hk'. reflexivity.
Qed.

Lemma plain_item_points (item : Item) (description : string) (points : Z) :
  price_finite item -> len (strip description) mod 3 <> 0 ->
  item_points points (with_description item description) = Ok points.
Proof.
  intros [k Hk] Hd. unfold item_points, with_description. cbn [price shortDescription].
  rewrite Hk. unfold bind.
  destruct (Z.eqb_spec (len (strip description) mod 3) 0); [contradiction | reflexivity].
Qed.

Lemma for_items_blank (pre post : list Item) (item : Item) (description : string)
    (c : Z) :
  price_finite item -> len (strip description) mod 3 <> 0 ->
  (forall points, item_points points item = Ok (points + c)) ->
  forall points,
    for_items points (pre ++ item :: post)
    = (do q <- for_items points (pre ++ with_description item description :: post) ;;
       Ok (q + c)).
Proof.
  intros Hf Hd Hitem points. rewrite !for_items_app. unfold bind.
  destruct (for_items points pre) as [q |]; [| reflexivity].
  cbn [for_items]. rewrite Hitem, (plain_item_points _ _ _ Hf Hd). unfold bind.
  rewrite for_items_shift. unfold bind.
  destruct (for_items q post); reflexivity.
Qed.

(** C10, as stated, fails: the receipt with an item of blank description and
    a price of 400 nines passes validation and is stored, the price is read
    as an infinity, and the points computation raises an OverflowError where
    the same receipt with a one-letter description gets its points. *)
Lemma blank_item_with_huge_price :
  ~ blank_items_get_bonus blank_huge_receipt
  /\ post_receipts_process "7fb1377b" blank_huge_receipt ∅
     = (Ok "7fb1377b", <["7fb1377b" := blank_huge_receipt]> ∅)
  /\ (exists msg,
       fst (get_receipt_points "7fb1377b" (<["7fb1377b" := blank_huge_receipt]> ∅))
       = Raise (OverflowError msg))
  /\ calculate_points
       (redescribed blank_huge_receipt [] blank_huge_item (items target_receipt) "x")
     = Ok 33.
Proof.
  assert (Hv : Receipt_validate blank_huge_receipt = Ok blank_huge_receipt)
    by (vm_compute; reflexivity).
  assert (Hc : calculate_points blank_huge_receipt
               = Raise (OverflowError "cannot convert float infinity to integer"))
    by (vm_compute; reflexivity).
  split; [| split; [| split]].
  - intros H.
    destruct (H Hv [] (items target_receipt) blank_huge_item eq_refl eq_refl)
      as [p [c [n [_ [_ [_ Hn]]]]]].
    rewrite Hc in Hn. discriminate Hn.
  - apply post_receipts_process_accepts;
      [exact Hv | reflexivity | discriminate | reflexivity].
  - eexists. unfold get_receipt_points. rewrite lookup_insert_eq. simpl. exact Hc.
  - vm_compute. reflexivity.
Qed.

(** C10, amended: an item whose description is empty once trimmed and whose
    price is read as a finite float adds ceil(price * 0.2) points, the
    length 0 counting as a multiple of 3.  The points of the receipt are
    those of the same receipt with that item under a description that earns
    no bonus, plus ceil(price * 0.2), and the computation fails on the one
    exactly when it fails on the other.  A description made of spaces only
    passes the validator and trims to the empty string. *)
Theorem blank_description_bonus :
  (forall (receipt : Receipt) (pre post : list Item) (item : Item)
          (description : string),
      items receipt = (pre ++ item :: post)%list ->
      strip (shortDescription item) = "" ->
      price_finite item ->
      len (strip description) mod 3 <> 0 ->
      exists (p : float) (c : Z),
        float_of_str (price item) = Ok p
        /\ ceil (fmul p float_0_2) = Ok c
        /\ calculate_points receipt
           = (do n <- calculate_points
                        (redescribed receipt pre item post description) ;;
              Ok (n + c)))
  /\ (forall n : nat,
      validate_short_description (blanks n) = Ok (blanks n)
      /\ strip (blanks n) = "").
Proof.
  split; [| intros n; split; [apply blanks_valid | apply strip_blanks]].
  intros receipt pre post item description Hitems Hs Hf Hd.
  destruct (blank_item_points item Hs Hf) as [p [c [Hp [Hc Hitem]]]].
  exists p, c. split; [exact Hp |]. split; [exact Hc |].
  rewrite !calculate_points_total_rules, !points_of_other_rules_sum.
  unfold redescribed.
  change (total (with_items receipt ?l)) with (total receipt).
  change (retailer (with_items receipt ?l)) with (retailer receipt).
  change (purchaseDate (with_items receipt ?l)) with (purchaseDate receipt).
  change (purchaseTime (with_items receipt ?l)) with (purchaseTime receipt).
  change (items (with_items receipt ?l)) with l.
  rewrite Hitems, (for_items_blank pre post item description c Hf Hd Hitem).
  rewrite !length_app. cbn [length]. unfold bind.
  destruct (float_of_str (total receipt)) as [x |]; [| reflexivity].
  destruct (float_rem x float_0_25) as [m |]; [| reflexivity].
  destruct (for_items 0 _) as [c5 |]; [| reflexivity].
  destruct (strptime_Ymd (purchaseDate receipt)) as [d |]; [| reflexivity].
  destruct (strptime_HM (purchaseTime receipt)) as [t |]; [| reflexivity].
  f_equal. lia.
Qed.

Lemma blank_description_bonus_witness :
  exists (p : float) (c : Z),
    float_of_str (price blank_item) = Ok p
    /\ ceil (fmul p float_0_2) = Ok c
    /\ calculate_points blank_item_receipt
       = (do n <- calculate_points
                    (redescribed blank_item_receipt
                       (firstn 2 (items target_receipt)) blank_item
                       (skipn 2 (items target_receipt)) "x") ;;
          Ok (n + c)).
Proof.
  apply (proj1 blank_description_bonus blank_item_receipt
           (firstn 2 (items target_receipt)) (skipn 2 (items target_receipt))
           blank_item "x").
  - reflexivity.
  - reflexivity.
  - exists (49 * 2 ^ 1072). vm_compute. reflexivity.
  - vm_compute. discriminate.
Defined.

(** * Further properties

    ** The validators and the submission *)

Lemma is_empty_spec (s : string) : is_empty s = true <-> s = "".
Proof. destruct s; simpl; split; intros H; congruence. Qed.

Lemma validated_total_not_empty (r : Receipt) :
  Receipt_validate r = Ok r -> total r <> "".
Proof.
  intros Hv Hempty.
  destruct (Receipt_validate_cases r) as [[_ [_ [_ Ht]]] | Hraise]; [| congruence].
  rewrite Hempty in Ht. vm_compute in Ht. discriminate.
Qed.

(** X1: the retailer validator returns its argument exactly when every
    character is alphanumeric or one of space, hyphen, ampersand and
    underscore, and raises a ValueError otherwise.  The ampersand is allowed
    in a retailer only: a string that has one is refused as a short
    description. *)
Theorem retailer_accepted_iff (s : string) :
  (validate_retailer s = Ok s <-> Forall retailer_char_ok (chars s))
  /\ (validate_retailer s = Ok s
      \/ exists msg, validate_retailer s = Raise (ValueError msg))
  /\ (In "&"%char (chars s) -> validate_short_description s <> Ok s).
Proof.
  split; [| split; [apply validate_retailer_cases |]].
  - rewrite validate_retailer_ok, List.forallb_forall, List.Forall_forall.
    split; intros H c Hin; specialize (H c Hin).
    + apply orb_true_iff in H. destruct H as [H | H]; [left; exact H |].
      right. apply char_in_spec in H. exact H.
    + apply orb_true_iff. destruct H as [H | H]; [left; exact H |].
      right. apply char_in_spec. exact H.
  - intros Hin Hok. apply validate_short_description_ok in Hok.
    rewrite List.forallb_forall in Hok. specialize (Hok _ Hin).
    vm_compute in Hok. discriminate.
Qed.

Lemma retailer_accepted_iff_witness :
  validate_short_description "M&M Corner Market" <> Ok "M&M Corner Market".
Proof.
  apply (proj2 (proj2 (retailer_accepted_iff "M&M Corner Market"))).
  simpl. right. left. reflexivity.
Defined.

(** X2: a submission has one of three outcomes.  Either the receipt is
    stored as it was sent under the identifier drawn, which is the answer,
    and then it passed validation and its retailer, items and total are not
    empty; or validation fails and the answer is the validation error; or
    the receipt passed validation with an empty retailer or no item and the
    answer is 400 "The receipt is invalid.".  In the last two cases the
    store is left as it was. *)
Theorem submission_all_or_nothing (uuid4 : string) (body : Receipt)
    (db : gmap string Receipt) :
  (post_receipts_process uuid4 body db = (Ok uuid4, <[uuid4 := body]> db)
   /\ accepted_receipt body)
  \/ (post_receipts_process uuid4 body db = (Raise ValidationError, db)
      /\ Receipt_validate body = Raise ValidationError)
  \/ (post_receipts_process uuid4 body db = (Raise invalid_receipt, db)
      /\ Receipt_validate body = Ok body
      /\ (retailer body = "" \/ items body = [])).
Proof.
  unfold post_receipts_process.
  destruct (Receipt_validate_cases body) as [[Hv _] | Hv]; rewrite Hv.
  - pose proof (validated_total_not_empty body Hv) as Ht.
    destruct (string_dec (retailer body) "") as [Hr | Hr].
    { right. right. split; [| auto].
      apply process_receipt_rejects_empty. auto. }
    destruct (items body) as [| item rest] eqn:Hi.
    { right. right. split; [| auto].
      apply process_receipt_rejects_empty. auto. }
    left. split.
    + unfold process_receipt. rewrite Hi.
      destruct (is_empty (retailer body)) eqn:Er;
        [apply is_empty_spec in Er; contradiction |].
      destruct (is_empty (total body)) eqn:Et;
        [apply is_empty_spec in Et; contradiction |].
      reflexivity.
    + unfold accepted_receipt. rewrite Hi. repeat split; auto.
  - right. left. split; reflexivity.
Qed.

Lemma post_accepted (uuid4 id : string) (body : Receipt)
    (db db' : gmap string Receipt) :
  post_receipts_process uuid4 body db = (Ok id, db') ->
  id = uuid4 /\ db' = <[uuid4 := body]> db /\ accepted_receipt body.
Proof.
  unfold post_receipts_process. intros H.
  destruct (Receipt_validate_cases body) as [[Hv _] | Hv]; rewrite Hv in H;
    [| inversion H].
  pose proof (validated_total_not_empty body Hv) as Ht.
  destruct (string_dec (retailer body) "") as [Hr | Hr].
  { rewrite process_receipt_rejects_empty in H by auto. inversion H. }
  destruct (items body) as [| item rest] eqn:Hi.
  { rewrite process_receipt_rejects_empty in H by auto. inversion H. }
  apply process_receipt_stores in H. destruct H as [-> ->].
  unfold accepted_receipt. rewrite Hi. repeat split; auto.
Qed.

(** ** The store across requests *)

(** X3: a successful submission leaves every other identifier alone: what
    the store holds under it, and what fetch-points answers for it, are the
    same after the submission as before. *)
Theorem submission_keeps_other_receipts (uuid4 id id' : string) (body : Receipt)
    (db db' : gmap string Receipt) :
  post_receipts_process uuid4 body db = (Ok id, db') ->
  id' <> id ->
  db' !! id' = db !! id'
  /\ fst (get_receipt_points id' db') = fst (get_receipt_points id' db).
Proof.
  intros H Hne. apply post_accepted in H. destruct H as [-> [-> _]].
  assert (Hlook : <[uuid4 := body]> db !! id' = db !! id')
    by (apply lookup_insert_ne; congruence).
  split; [exact Hlook |].
  unfold get_receipt_points. rewrite Hlook.
  destruct (db !! id'); reflexivity.
Qed.

Lemma submission_keeps_other_receipts_witness :
  (<["b" := target_receipt]> (<["a" := round_total_receipt]> ∅)
     : gmap string Receipt) !! "a"
  = (<["a" := round_total_receipt]> ∅ : gmap string Receipt) !! "a"
  /\ fst (get_receipt_points "a"
            (<["b" := target_receipt]> (<["a" := round_total_receipt]> ∅)))
     = fst (get_receipt_points "a" (<["a" := round_total_receipt]> ∅)).
Proof.
  apply (submission_keeps_other_receipts "b" "b" "a" target_receipt
           (<["a" := round_total_receipt]> ∅)
           (<["b" := target_receipt]> (<["a" := round_total_receipt]> ∅))).
  - vm_compute. reflexivity.
  - discriminate.
Defined.

(** X4: after a successful submission the store holds, under the identifier
    returned, the receipt that was submitted, and fetch-points for that
    identifier answers what the points computation gives on that receipt and
    leaves the store as it is. *)
Theorem submit_then_fetch (uuid4 id : string) (body : Receipt)
    (db db' : gmap string Receipt) :
  post_receipts_process uuid4 body db = (Ok id, db') ->
  db' !! id = Some body
  /\ get_receipt_points id db' = (calculate_points body, db').
Proof.
  intros H. apply post_accepted in H. destruct H as [-> [-> _]].
  assert (Hlook : <[uuid4 := body]> db !! uuid4 = Some body)
    by apply lookup_insert_eq.
  split; [exact Hlook |].
  unfold get_receipt_points. rewrite Hlook. reflexivity.
Qed.

Lemma submit_then_fetch_witness :
  (<["a" := target_receipt]> ∅ : gmap string Receipt) !! "a" = Some target_receipt
  /\ get_receipt_points "a" (<["a" := target_receipt]> ∅)
     = (calculate_points target_receipt, <["a" := target_receipt]> ∅).
Proof.
  apply (submit_then_fetch "a" "a" target_receipt ∅ (<["a" := target_receipt]> ∅)).
  vm_compute. reflexivity.
Defined.

(** X5: [validate_price] returns its argument exactly when [float] reads
    it, the float is not below zero and the piece after the last point has
    two characters.  Every failure, whatever its cause, is the one
    ValueError "Invalid price format. Expected format: '19.99'.": the
    messages about a negative price and about two decimal places are raised
    inside the [try] block and replaced by it.  The total goes through the
    same function. *)
Theorem price_failures_share_one_message (value : string) :
  (validate_price value = Ok value
   <-> exists x, float_of_str value = Ok x /\ flt x float_0 = false
                 /\ len (last_item (split value ".")) = 2)
  /\ (validate_price value = Ok value
      \/ validate_price value = Raise invalid_price_format)
  /\ validate_total value = validate_price value.
Proof.
  split; [| split; [| reflexivity]].
  - split.
    + intros H. destruct (validate_price_cases value) as [[_ Hx] | [msg Hm]];
        [exact Hx | congruence].
    + intros [x [Hx [Hneg Hlen]]]. unfold validate_price, bind, except_ValueError.
      rewrite Hx, Hneg, Hlen. reflexivity.
  - unfold validate_price, bind, except_ValueError.
    destruct (float_of_str value) as [x | e] eqn:Hx.
    + destruct (flt x float_0); [right; reflexivity |].
      destruct (negb (len (last_item (split value ".")) =? 2));
        [right | left]; reflexivity.
    + apply float_of_str_error in Hx. subst e. right. reflexivity.
Qed.

Lemma handle_cases (req : request) (db : gmap string Receipt) :
  handle req db = db
  \/ exists uuid4 body, req = Submit uuid4 body
       /\ handle req db = <[uuid4 := body]> db /\ accepted_receipt body.
Proof.
  destruct req as [uuid4 body | id]; simpl.
  - destruct (post_receipts_process uuid4 body db) as [[id |e] db'] eqn:Hp.
    + apply post_accepted in Hp. destruct Hp as [_ [-> Hacc]].
      right. exists uuid4, body. auto.
    + left. unfold post_receipts_process in Hp.
      destruct (Receipt_validate body).
      * unfold process_receipt in Hp.
        destruct (is_empty (retailer a) || _ || _); inversion Hp; reflexivity.
      * inversion Hp; reflexivity.
  - left. unfold get_receipt_points. destruct (db !! id); reflexivity.
Qed.

(** X6: whatever sequence of submissions and fetches is served, if every
    receipt of the store passed the submission checks before (as in the
    empty store the module starts with), every receipt of the store has
    passed them after, and no identifier that was stored is lost. *)
Theorem served_store_invariant (reqs : list request) (db : gmap string Receipt) :
  store_ok db ->
  store_ok (serve reqs db)
  /\ forall id, is_Some (db !! id) -> is_Some (serve reqs db !! id).
Proof.
  revert db. induction reqs as [| req reqs IH]; intros db Hok.
  - split; [exact Hok | auto].
  - change (serve (req :: reqs) db) with (serve reqs (handle req db)).
    destruct (handle_cases req db) as [-> | [uuid4 [body [_ [-> Hacc]]]]].
    + apply IH. exact Hok.
    + assert (Hok' : store_ok (<[uuid4 := body]> db)).
      { intros id r Hlook. destruct (decide (uuid4 = id)) as [-> | Hne].
        - rewrite lookup_insert_eq in Hlook. inversion Hlook; subst. exact Hacc.
        - rewrite lookup_insert_ne in Hlook by exact Hne. eapply Hok; eassumption. }
      destruct (IH _ Hok') as [H1 H2]. split; [exact H1 |].
      intros id Hsome. apply H2.
      destruct (decide (uuid4 = id)) as [-> | Hne].
      * rewrite lookup_insert_eq. eauto.
      * rewrite lookup_insert_ne by exact Hne. exact Hsome.
Qed.

Lemma served_store_invariant_witness :
  store_ok (serve [Submit "a" target_receipt; Fetch "a"; Submit "b" undated_receipt] ∅)
  /\ forall id, is_Some ((∅ : gmap string Receipt) !! id) ->
       is_Some (serve [Submit "a" target_receipt; Fetch "a";
                       Submit "b" undated_receipt] ∅ !! id).
Proof.
  apply (served_store_invariant
           [Submit "a" target_receipt; Fetch "a"; Submit "b" undated_receipt] ∅).
  intros id r H. rewrite lookup_empty in H. discriminate.
Defined.

(** ** The order of the items *)

Lemma item_points_from_zero (item : Item) (p : Z) :
  item_points p item = (do c <- item_points 0 item ;; Ok (c + p)).
Proof. apply (item_points_shift item 0 p). Qed.

Lemma for_items_swap (x y : Item) (l : list Item) (p q : Z) :
  for_items p (y :: x :: l) = Ok q -> for_items p (x :: y :: l) = Ok q.
Proof.
  simpl.
  rewrite (item_points_from_zero y p), (item_points_from_zero x p).
  destruct (item_points 0 y) as [cy |] eqn:Hy; simpl; [| discriminate].
  rewrite (item_points_from_zero x (cy + p)).
  destruct (item_points 0 x) as [cx |] eqn:Hx; simpl; [| discriminate].
  rewrite (item_points_from_zero y (cx + p)), Hy. simpl.
  intros H. rewrite <- H. f_equal. lia.
Qed.

Lemma for_items_permutation (l1 l2 : list Item) :
  Permutation l1 l2 ->
  forall p q, for_items p l1 = Ok q -> for_items p l2 = Ok q.
Proof.
  induction 1 as [| x l1 l2 Hperm IH | x y l | l1 l2 l3 H12 IH12 H23 IH23];
    intros p q H.
  - exact H.
  - simpl in *. destruct (item_points p x) as [p' |]; simpl in *; [| discriminate].
    apply IH. exact H.
  - apply for_items_swap. exact H.
  - apply IH23, IH12, H.
Qed.

(** X7: the points do not depend on the order of the items: when the points
    computation returns [n] on a receipt, it returns [n] on the same receipt
    with its items in any other order. *)
Theorem item_order_is_irrelevant (receipt : Receipt) (l : list Item) (n : Z) :
  Permutation (items receipt) l ->
  calculate_points receipt = Ok n ->
  calculate_points (with_items receipt l) = Ok n.
Proof.
  intros Hperm. rewrite !calculate_points_total_rules, !points_of_other_rules_sum.
  change (total (with_items receipt l)) with (total receipt).
  change (items (with_items receipt l)) with l.
  change (retailer (with_items receipt l)) with (retailer receipt).
  change (purchaseDate (with_items receipt l)) with (purchaseDate receipt).
  change (purchaseTime (with_items receipt l)) with (purchaseTime receipt).
  rewrite <- (Permutation_length Hperm).
  unfold bind.
  destruct (float_of_str (total receipt)) as [x |]; [| discriminate].
  destruct (float_rem x float_0_25) as [m |]; [| discriminate].
  destruct (for_items 0 (items receipt)) as [c5 |] eqn:Hc5; [| discriminate].
  rewrite (for_items_permutation _ _ Hperm 0 c5 Hc5). auto.
Qed.

Lemma item_order_is_irrelevant_witness :
  calculate_points (with_items target_receipt (rev (items target_receipt))) = Ok 28.
Proof.
  refine (item_order_is_irrelevant target_receipt (rev (items target_receipt)) 28 _ _).
  - apply Permutation_rev.
  - vm_compute. reflexivity.
Defined.

(** ** [strptime] on well-formed text *)

Lemma digit_cases (c : ascii) :
  is_digit c = true ->
  In c ["0"; "1"; "2"; "3"; "4"; "5"; "6"; "7"; "8"; "9"]%char.
Proof.
  destruct c as [[] [] [] [] [] [] [] []]; vm_compute; intros H;
    try discriminate H; tauto.
Qed.

Ltac digit_split c H :=
  apply digit_cases in H; simpl in H;
  destruct H as [H | [H | [H | [H | [H | [H | [H | [H | [H | [H | []]]]]]]]]]];
  subst c.

Lemma regex_time_strict (h1 h2 m1 m2 : ascii) :
  is_digit h1 = true -> is_digit h2 = true ->
  is_digit m1 = true -> is_digit m2 = true ->
  (digits_value [h1; h2] <? 24) = true ->
  (digits_value [m1; m2] <? 60) = true ->
  regex_match [re_H; re_lit ":"; re_M] [h1; h2; ":"%char; m1; m2]
  = Some ([[h1; h2]; [":"%char]; [m1; m2]], []).
Proof.
  intros H1 H2 H3 H4 Hh Hm.
  digit_split h1 H1; digit_split h2 H2;
    try (vm_compute in Hh; discriminate Hh); clear Hh;
    digit_split m1 H3; digit_split m2 H4;
    try (vm_compute in Hm; discriminate Hm); reflexivity.
Qed.

Lemma regex_date_tail_strict (m1 m2 d1 d2 : ascii) :
  is_digit m1 = true -> is_digit m2 = true ->
  is_digit d1 = true -> is_digit d2 = true ->
  between 1 12 (digits_value [m1; m2]) = true ->
  between 1 31 (digits_value [d1; d2]) = true ->
  regex_match [re_lit "-"; re_m; re_lit "-"; re_d]
    ["-"%char; m1; m2; "-"%char; d1; d2]
  = Some ([["-"%char]; [m1; m2]; ["-"%char]; [d1; d2]], []).
Proof.
  intros H1 H2 H3 H4 Hm Hd.
  digit_split m1 H1; digit_split m2 H2;
    try (vm_compute in Hm; discriminate Hm); clear Hm;
    digit_split d1 H3; digit_split d2 H4;
    try (vm_compute in Hd; discriminate Hd); reflexivity.
Qed.

Lemma digit_not_space (c : ascii) : is_digit c = true -> isspace c = false.
Proof.
  destruct c as [[] [] [] [] [] [] [] []]; vm_compute; intros H;
    try discriminate H; reflexivity.
Qed.

Lemma digit_bounds (c : ascii) : is_digit c = true -> 0 <= ord c - 48 <= 9.
Proof.
  unfold is_digit, between. intros H. apply andb_true_iff in H.
  destruct H as [H1 H2]. apply Z.leb_le in H1, H2. lia.
Qed.

Lemma int_of_digits (c : ascii) (l : list ascii) :
  is_digit c = true -> int_of (c :: l) = digits_value (c :: l).
Proof.
  intros H. unfold int_of. simpl. rewrite (digit_not_space c H). reflexivity.
Qed.

Lemma days_in_month_le_31 (y m : Z) : days_in_month y m <= 31.
Proof.
  unfold days_in_month.
  repeat match goal with |- context [if ?b then _ else _] => destruct b end; lia.
Qed.

Lemma regex_year_prefix (y1 y2 y3 y4 : ascii) (p : list (list (list atom)))
    (s : list ascii) :
  is_digit y1 = true -> is_digit y2 = true ->
  is_digit y3 = true -> is_digit y4 = true ->
  regex_match (re_Y :: p) (y1 :: y2 :: y3 :: y4 :: s)
  = match regex_match p s with
    | Some (ms, rest) => Some ([y1; y2; y3; y4] :: ms, rest)
    | None => None
    end.
Proof.
  intros H1 H2 H3 H4.
  cbn [regex_match re_Y first_some match_alt atom_matches].
  rewrite H1, H2, H3, H4.
  destruct (regex_match p s) as [[ms rest] |]; reflexivity.
Qed.

Lemma hh_mm_time_shape (s : string) :
  hh_mm_time s = true ->
  exists h1 h2 m1 m2,
    chars s = [h1; h2; ":"%char; m1; m2]
    /\ is_digit h1 = true /\ is_digit h2 = true
    /\ is_digit m1 = true /\ is_digit m2 = true
    /\ (digits_value [h1; h2] <? 24) = true
    /\ (digits_value [m1; m2] <? 60) = true.
Proof.
  unfold hh_mm_time.
  destruct (chars s) as [| h1 [| h2 [| c [| m1 [| m2 [| x l]]]]]];
    try discriminate.
  intros H. do 3 (apply andb_true_iff in H; destruct H as [H ?]).
  cbn [forallb] in H. do 4 (apply andb_true_iff in H; destruct H as [? H]).
  match goal with E : Ascii.eqb c ":" = true |- _ =>
    apply Ascii.eqb_eq in E; subst c end.
  exists h1, h2, m1, m2. repeat split; assumption.
Qed.

Lemma strptime_HM_strict (s : string) :
  hh_mm_time s = true ->
  strptime_HM s
  = Ok {| year := 1900; month := 1; day := 1;
          hour := digits_value (firstn 2 (chars s));
          minute := digits_value (skipn 3 (chars s)) |}.
Proof.
  intros H. apply hh_mm_time_shape in H.
  destruct H as [h1 [h2 [m1 [m2 [Hs [H1 [H2 [H3 [H4 [Hh Hm]]]]]]]]]].
  unfold strptime_HM. rewrite Hs.
  rewrite (regex_time_strict h1 h2 m1 m2 H1 H2 H3 H4 Hh Hm).
  rewrite (int_of_digits h1 _ H1), (int_of_digits m1 _ H3). reflexivity.
Qed.

Lemma iso_calendar_date_shape (s : string) :
  iso_calendar_date s = true ->
  exists y1 y2 y3 y4 m1 m2 d1 d2,
    chars s = [y1; y2; y3; y4; "-"%char; m1; m2; "-"%char; d1; d2]
    /\ forallb is_digit [y1; y2; y3; y4; m1; m2; d1; d2] = true
    /\ between 1 12 (digits_value [m1; m2]) = true
    /\ between 1 (days_in_month (digits_value [y1; y2; y3; y4])
                    (digits_value [m1; m2]))
         (digits_value [d1; d2]) = true.
Proof.
  unfold iso_calendar_date.
  destruct (chars s)
    as [| y1 [| y2 [| y3 [| y4 [| s1 [| m1 [| m2 [| s2 [| d1 [| d2 [| x l]]]]]]]]]]];
    try discriminate.
  intros H. do 4 (apply andb_true_iff in H; destruct H as [H ?]).
  repeat match goal with E : Ascii.eqb _ "-" = true |- _ =>
    apply Ascii.eqb_eq in E; subst end.
  exists y1, y2, y3, y4, m1, m2, d1, d2. repeat split; assumption.
Qed.

Lemma strptime_Ymd_strict (s : string) :
  iso_calendar_date s = true ->
  1 <= digits_value (firstn 4 (chars s)) ->
  strptime_Ymd s
  = Ok {| year := digits_value (firstn 4 (chars s));
          month := digits_value (firstn 2 (skipn 5 (chars s)));
          day := digits_value (skipn 8 (chars s));
          hour := 0; minute := 0 |}.
Proof.
  intros H Hyear. apply iso_calendar_date_shape in H.
  destruct H as [y1 [y2 [y3 [y4 [m1 [m2 [d1 [d2 [Hs [Hd [Hm Hday]]]]]]]]]]].
  rewrite Hs in Hyear |- *. cbn [firstn skipn] in Hyear |- *.
  cbn [forallb] in Hd. do 8 (apply andb_true_iff in Hd; destruct Hd as [? Hd]).
  assert (Hday31 : between 1 31 (digits_value [d1; d2]) = true).
  { unfold between in *. apply andb_true_iff in Hday. destruct Hday as [Ha Hb].
    rewrite Ha. simpl. apply Z.leb_le. apply Z.leb_le in Hb.
    pose proof (days_in_month_le_31 (digits_value [y1; y2; y3; y4])
                  (digits_value [m1; m2])). lia. }
  unfold strptime_Ymd. rewrite Hs.
  rewrite regex_year_prefix by assumption.
  rewrite regex_date_tail_strict by assumption.
  rewrite (int_of_digits y1), (int_of_digits m1), (int_of_digits d1) by assumption.
  assert (Hy : between 1 9999 (digits_value [y1; y2; y3; y4]) = true).
  { unfold between. apply andb_true_iff. split; apply Z.leb_le; [exact Hyear |].
    unfold digits_value. simpl.
    pose proof (digit_bounds y1 ltac:(assumption)).
    pose proof (digit_bounds y2 ltac:(assumption)).
    pose proof (digit_bounds y3 ltac:(assumption)).
    pose proof (digit_bounds y4 ltac:(assumption)). lia. }
  unfold check_date. rewrite Hy, Hm, Hday. reflexivity.
Qed.

Lemma price_in_format_finite (item : Item) :
  price_in_format item -> price_finite item.
Proof.
  intros [cents [Hm Hlt]].
  pose proof (money_cents_nonneg _ _ Hm) as H0.
  destruct (decimal_cents_tests cents ltac:(lia)) as [k [Hk _]].
  exists k. rewrite (float_of_str_money _ _ Hm). rewrite Hk. reflexivity.
Qed.

Lemma points_defined (receipt : Receipt) (d t : datetime) :
  Receipt_validate receipt = Ok receipt ->
  strptime_Ymd (purchaseDate receipt) = Ok d ->
  strptime_HM (purchaseTime receipt) = Ok t ->
  List.Forall price_finite (items receipt) ->
  exists n, calculate_points receipt = Ok n /\ 0 <= n.
Proof.
  intros Hv Hd Ht Hf.
  destruct (Receipt_validate_cases receipt) as [[_ [_ [Hi Htot]]] | Hraise];
    [| congruence].
  unfold validate_total in Htot.
  destruct (validate_price_cases (total receipt)) as [[_ [x [Hx _]]] | [msg Hmsg]];
    [| congruence].
  destruct (float_rem_0_25_ok x) as [m Hm].
  destruct (for_items_nonneg (items receipt) Hi Hf 0) as [c5 [Hc5 Hc50]].
  pose proof (count_alnum_nonneg (retailer receipt)) as Hc1.
  assert (0 <= Z.of_nat (length (items receipt)) / 2) by (apply Z.div_pos; lia).
  rewrite calculate_points_total_rules, points_of_other_rules_sum.
  rewrite Hx, Hc5, Hd, Ht. unfold bind. rewrite Hm.
  eexists. split; [reflexivity |]. unfold afternoon.
  destruct (day d mod 2 =? 1); destruct ((14 <=? hour t) && (hour t <? 16));
    destruct (is_integer x); destruct (feq m float_0); lia.
Qed.

(** X8: a receipt in the formats of the spec always gets its points.  For a
    validated receipt whose date is written YYYY-MM-DD and is a day of the
    calendar in a year from 1 on, whose time is written HH:MM with an hour
    below 24 and a minute below 60, and whose prices are digits, a point and
    two digits with a value below 2^47, the points computation returns an
    integer that is not negative, and fetch-points answers it on any store
    that holds the receipt, leaving the store as it is. *)
Theorem well_formed_receipt_scored (receipt : Receipt) :
  Receipt_validate receipt = Ok receipt ->
  iso_calendar_date (purchaseDate receipt) = true ->
  1 <= digits_value (firstn 4 (chars (purchaseDate receipt))) ->
  hh_mm_time (purchaseTime receipt) = true ->
  List.Forall price_in_format (items receipt) ->
  exists n, 0 <= n /\ calculate_points receipt = Ok n
            /\ forall (id : string) (db : gmap string Receipt),
                 db !! id = Some receipt ->
                 get_receipt_points id db = (Ok n, db).
Proof.
  intros Hv Hdate Hyear Htime Hprices.
  destruct (points_defined receipt _ _ Hv
              (strptime_Ymd_strict _ Hdate Hyear) (strptime_HM_strict _ Htime))
    as [n [Hn Hn0]].
  { eapply List.Forall_impl; [| exact Hprices].
    intros item. apply price_in_format_finite. }
  exists n. split; [exact Hn0 |]. split; [exact Hn |].
  intros id db Hlook. unfold get_receipt_points. rewrite Hlook, Hn. reflexivity.
Qed.

Lemma well_formed_receipt_scored_witness :
  exists n, 0 <= n /\ calculate_points target_receipt = Ok n
            /\ forall (id : string) (db : gmap string Receipt),
                 db !! id = Some target_receipt ->
                 get_receipt_points id db = (Ok n, db).
Proof.
  apply (well_formed_receipt_scored target_receipt).
  - vm_compute. reflexivity.
  - reflexivity.
  - vm_compute. discriminate.
  - reflexivity.
  - repeat constructor; eexists; (split; [vm_compute; reflexivity | reflexivity]).
Defined.

(** ** Rule 5 in exact arithmetic *)

(** The arithmetic behind rule 5: [k] is a price of [c] cents rounded with
    spacing [S1], [k'] its product by 0.2 rounded with spacing [S2]. *)
Lemma fifth_bounds (E U C S1 S2 c k k' n : Z) :
  0 < E -> U = 18014398509481984 * E -> 5 * C = U + E ->
  0 < S1 <= 4398046511104 * E -> 0 < S2 <= 1099511627776 * E ->
  0 <= c < 100 * 1099511627776 -> 0 <= k ->
  - (100 * S1) <= 2 * (100 * k - c * U) <= 100 * S1 ->
  - (U * S2) <= 2 * (k' * U - k * C) <= U * S2 ->
  500 * (n - 1) < c < 500 * n ->
  (n - 1) * U < k' < n * U.
Proof.
  intros HE HU HC HS1 HS2 Hc Hk He1 He2 Hn.
  assert (HU0 : 0 < U) by lia.
  assert (HEU : E <= U) by lia.
  assert (HP : 0 < U * E) by (apply Z.mul_pos_pos; assumption).
  assert (HA : U * U = 18014398509481984 * (U * E)) by (rewrite HU at 2; ring).
  (* products of the hypotheses by U and by E *)
  assert (KC : 5 * (k * C) = k * U + k * E)
    by (rewrite <- Z.mul_add_distr_l, <- HC; ring).
  assert (HkU : - (100 * (S1 * U)) <= 2 * (100 * (k * U) - c * (U * U))
                <= 100 * (S1 * U)).
  { replace (2 * (100 * (k * U) - c * (U * U)))
      with ((2 * (100 * k - c * U)) * U) by ring.
    replace (- (100 * (S1 * U))) with ((- (100 * S1)) * U) by ring.
    replace (100 * (S1 * U)) with ((100 * S1) * U) by ring.
    split; apply Z.mul_le_mono_nonneg_r; lia. }
  assert (HkE : - (100 * (S1 * E)) <= 2 * (100 * (k * E) - c * (U * E))
                <= 100 * (S1 * E)).
  { replace (2 * (100 * (k * E) - c * (U * E)))
      with ((2 * (100 * k - c * U)) * E) by ring.
    replace (- (100 * (S1 * E))) with ((- (100 * S1)) * E) by ring.
    replace (100 * (S1 * E)) with ((100 * S1) * E) by ring.
    split; apply Z.mul_le_mono_nonneg_r; lia. }
  (* the sizes of the rounding errors *)
  assert (B1 : 0 <= S1 * U <= 4398046511104 * (U * E)).
  { split; [apply Z.mul_nonneg_nonneg; lia |].
    replace (4398046511104 * (U * E)) with ((4398046511104 * E) * U) by ring.
    apply Z.mul_le_mono_nonneg_r; lia. }
  assert (B2 : 0 <= S1 * E <= 4398046511104 * (U * E)).
  { split; [apply Z.mul_nonneg_nonneg; lia |].
    apply Z.le_trans with (S1 * U); [apply Z.mul_le_mono_nonneg_l; lia | lia]. }
  assert (B3 : 0 <= U * S2 <= 1099511627776 * (U * E)).
  { split; [apply Z.mul_nonneg_nonneg; lia |].
    replace (1099511627776 * (U * E)) with (U * (1099511627776 * E)) by ring.
    apply Z.mul_le_mono_nonneg_l; lia. }
  assert (B4 : 0 <= c * (U * E) <= 109951162777600 * (U * E)).
  { split; [apply Z.mul_nonneg_nonneg; lia |].
    apply Z.mul_le_mono_nonneg_r; lia. }
  (* the place of c between two multiples of 500 *)
  assert (Hlow : 500 * ((n - 1) * (U * U)) + U * U <= c * (U * U)).
  { replace (500 * ((n - 1) * (U * U)) + U * U)
      with ((500 * (n - 1) + 1) * (U * U)) by ring.
    apply Z.mul_le_mono_nonneg_r; [apply Z.mul_nonneg_nonneg; lia | lia]. }
  assert (Hup : c * (U * U) <= 500 * (n * (U * U)) - U * U).
  { replace (500 * (n * (U * U)) - U * U) with ((500 * n - 1) * (U * U)) by ring.
    apply Z.mul_le_mono_nonneg_r; [apply Z.mul_nonneg_nonneg; lia | lia]. }
  split.
  - apply Z.mul_lt_mono_pos_r with (p := U); [exact HU0 |].
    replace ((n - 1) * U * U) with ((n - 1) * (U * U)) by ring. lia.
  - apply Z.mul_lt_mono_pos_r with (p := U); [exact HU0 |].
    replace (n * U * U) with (n * (U * U)) by ring. lia.
Qed.

Lemma round_half_even_near (n d j : Z) :
  0 < d -> - d < 2 * (j * d - n) < d -> round_half_even n d = j.
Proof.
  intros Hd Hj. pose proof (round_half_even_error n d Hd) as Hr.
  assert (- (2 * d) < 2 * d * (round_half_even n d - j) < 2 * d) by lia.
  assert (-1 < round_half_even n d - j < 1) by nia. lia.
Qed.

Lemma ceil_between (k n : Z) :
  (n - 1) * one_units < k <= n * one_units -> ceil (Fin k) = Ok n.
Proof.
  intros H. unfold ceil. f_equal.
  assert (HU : 0 < one_units) by (apply Z.pow_pos_nonneg; lia).
  assert (- k / one_units = - n); [| lia].
  symmetry. apply Z.div_unique with (r := n * one_units - k); lia.
Qed.

(** A price of [c] cents read as a float: the spacing [2 ^ s] of the floats
    around it, the rounding error, and exactness on whole numbers. *)
Lemma price_float (c : Z) :
  0 <= c < 100 * 2 ^ 40 ->
  exists k s,
    float_of_decimal false c (-2) = Fin k /\ 0 <= k
    /\ 0 <= s <= 1062
    /\ - (100 * 2 ^ s) <= 2 * (100 * k - c * one_units) <= 100 * 2 ^ s
    /\ (forall j, c = 100 * j -> k = j * one_units).
Proof.
  intros Hc. unfold float_of_decimal.
  change (0 <=? -2) with false. change (10 ^ (- -2)) with 100. cbv iota.
  unfold round_signed, one_units.
  assert (HU : 0 < 2 ^ 1074) by (apply Z.pow_pos_nonneg; lia).
  set (n := c * 2 ^ 1074).
  assert (Hn : 0 <= n) by (unfold n; nia).
  assert (Hq : n / 100 < 2 ^ 1114).
  { apply Z.div_lt_upper_bound; [lia |]. unfold n.
    change 1114 with (40 + 1074). rewrite Z.pow_add_r by lia.
    assert (c < 100 * 2 ^ 40) by lia.
    replace (100 * (2 ^ 40 * 2 ^ 1074)) with ((100 * 2 ^ 40) * 2 ^ 1074) by ring.
    apply Z.mul_lt_mono_pos_r; lia. }
  assert (Hq0 : 0 <= n / 100) by (apply Z.div_pos; lia).
  rewrite round_units_value; [| exact Hn | lia |].
  2:{ eapply Z.lt_trans; [exact Hq |]. apply Z.pow_lt_mono_r; lia. }
  cbv zeta.
  set (s := Z.max 0 (Z.log2 (n / 100) - 52)).
  assert (Hs : 0 <= s <= 1062).
  { split; [lia |].
    destruct (Z.eq_dec (n / 100) 0) as [E | Hne].
    - unfold s. rewrite E. simpl. lia.
    - assert (Z.log2 (n / 100) < 1114) by (apply Z.log2_lt_pow2; lia).
      lia. }
  set (P := 2 ^ s).
  assert (HP : 0 < P) by (apply Z.pow_pos_nonneg; lia).
  set (T := 2 ^ (1074 - s)).
  assert (HT : 0 < T) by (apply Z.pow_pos_nonneg; lia).
  assert (HUW : 2 ^ 1074 = T * P).
  { unfold T, P. rewrite <- Z.pow_add_r by lia. f_equal. lia. }
  set (r := round_half_even n (100 * P)).
  pose proof (round_half_even_error n (100 * P) ltac:(lia)) as Herr.
  fold r in Herr.
  assert (Hr0 : 0 <= r) by (apply round_half_even_nonneg; lia).
  exists (r * P), s. split; [reflexivity |].
  split; [apply Z.mul_nonneg_nonneg; lia |]. split; [exact Hs |].
  split.
  - fold P. unfold n in Herr. lia.
  - intros j Hj.
    assert (Hex : r = j * T).
    { unfold r. apply round_half_even_exact; [lia |].
      unfold n. rewrite HUW, Hj. ring. }
    rewrite Hex, HUW. ring.
Qed.

(** The product of a float by 0.2: the spacing of the floats around it, the
    rounding error, and the exact result on a multiple of five. *)
Lemma fifth_float (k : Z) :
  0 <= k < 2 ^ 41 * one_units ->
  exists k' s,
    fmul (Fin k) float_0_2 = Fin k' /\ 0 <= s <= 1060
    /\ - (one_units * 2 ^ s)
       <= 2 * (k' * one_units - k * (3602879701896397 * 2 ^ 1020))
       <= one_units * 2 ^ s
    /\ (forall n, 0 <= n -> k = 5 * n * one_units -> k' = n * one_units).
Proof.
  intros Hk. rewrite float_0_2_eq. unfold fmul.
  set (C := 3602879701896397 * 2 ^ 1020).
  assert (HE : 0 < 2 ^ 1020) by (apply Z.pow_pos_nonneg; lia).
  assert (HU : 0 < one_units) by (apply Z.pow_pos_nonneg; lia).
  assert (HUE : one_units = 18014398509481984 * 2 ^ 1020).
  { unfold one_units. change 1074 with (54 + 1020).
    rewrite Z.pow_add_r by lia. reflexivity. }
  assert (HC0 : 0 < C) by (unfold C; lia).
  assert (HC4 : 4 * C < one_units) by (unfold C; lia).
  assert (H5C : 5 * C = one_units + 2 ^ 1020) by (unfold C; lia).
  destruct (Z.ltb_spec k 0); [lia |]. destruct (Z.ltb_spec C 0); [lia |].
  simpl xorb. rewrite !Z.abs_eq by lia. unfold round_signed.
  assert (Hn : 0 <= k * C) by (apply Z.mul_nonneg_nonneg; lia).
  assert (Hq : k * C / one_units < 2 ^ 1113).
  { apply Z.div_lt_upper_bound; [exact HU |].
    assert (H1 : k * (4 * C) <= k * one_units)
      by (apply Z.mul_le_mono_nonneg_l; lia).
    assert (H2 : k * one_units < 2 ^ 41 * one_units * one_units)
      by (apply Z.mul_lt_mono_pos_r; lia).
    assert (H3 : 2 ^ 41 * one_units = 4 * 2 ^ 1113).
    { unfold one_units. change 4 with (2 ^ 2).
      rewrite <- !Z.pow_add_r by lia. reflexivity. }
    rewrite H3 in H2. lia. }
  assert (Hq0 : 0 <= k * C / one_units) by (apply Z.div_pos; lia).
  rewrite round_units_value; [| exact Hn | exact HU |].
  2:{ eapply Z.lt_trans; [exact Hq |]. apply Z.pow_lt_mono_r; lia. }
  cbv zeta.
  set (s := Z.max 0 (Z.log2 (k * C / one_units) - 52)).
  assert (Hs : 0 <= s <= 1060).
  { split; [lia |].
    destruct (Z.eq_dec (k * C / one_units) 0) as [E | Hne].
    - unfold s. rewrite E. simpl. lia.
    - assert (Z.log2 (k * C / one_units) < 1113) by (apply Z.log2_lt_pow2; lia).
      lia. }
  set (P := 2 ^ s).
  assert (HP : 0 < P) by (apply Z.pow_pos_nonneg; lia).
  set (r := round_half_even (k * C) (one_units * P)).
  pose proof (round_half_even_error (k * C) (one_units * P) ltac:(lia)) as Herr.
  fold r in Herr.
  exists (r * P), s. split; [reflexivity |]. split; [exact Hs |].
  split; [fold P; lia |].
  intros n Hn0 Hkn.
  destruct (Z.eq_dec n 0) as [-> | Hnz].
  { assert (Hr : r = 0).
    { unfold r. apply round_half_even_exact; [lia |]. rewrite Hkn. ring. }
    rewrite Hr. ring. }
  set (T := 2 ^ (1074 - s)).
  assert (HT : one_units = T * P).
  { unfold T, P, one_units. rewrite <- Z.pow_add_r by lia. f_equal. lia. }
  assert (HkC : k * C = n * one_units * (one_units + 2 ^ 1020)).
  { rewrite Hkn, <- H5C. ring. }
  assert (Hlog : Z.log2 n + 1074 <= Z.log2 (k * C / one_units)).
  { rewrite HkC.
    replace (n * one_units * (one_units + 2 ^ 1020))
      with (n * (one_units + 2 ^ 1020) * one_units) by ring.
    rewrite Z.div_mul by lia.
    rewrite Z.add_comm. unfold one_units at 1.
    rewrite <- (Z.log2_mul_pow2 n 1074) by lia.
    apply Z.log2_le_mono. fold one_units. nia. }
  assert (Hsl : Z.log2 n + 1022 <= s) by (unfold s; lia).
  assert (Hpow : 2 ^ Z.log2 n * (4 * 2 ^ 1020) <= P).
  { change (4 * 2 ^ 1020) with (2 ^ 1022).
    rewrite <- Z.pow_add_r by (try apply Z.log2_nonneg; lia).
    apply Z.pow_le_mono_r; lia. }
  pose proof (Z.log2_spec n ltac:(lia)) as [_ Hn2].
  rewrite Z.pow_succ_r in Hn2 by apply Z.log2_nonneg.
  assert (H2n : 2 * n * 2 ^ 1020 < P).
  { apply Z.lt_le_trans with (2 ^ Z.log2 n * (4 * 2 ^ 1020)); [| exact Hpow].
    replace (2 * n * 2 ^ 1020) with (n * (2 * 2 ^ 1020)) by ring.
    replace (2 ^ Z.log2 n * (4 * 2 ^ 1020))
      with ((2 * 2 ^ Z.log2 n) * (2 * 2 ^ 1020)) by ring.
    apply Z.mul_lt_mono_pos_r; lia. }
  assert (Hr : r = n * T).
  { unfold r. apply round_half_even_near; [lia |].
    replace (n * T * (one_units * P)) with (n * one_units * one_units)
      by (rewrite HT; ring).
    rewrite HkC.
    replace (2 * (n * one_units * one_units
                  - n * one_units * (one_units + 2 ^ 1020)))
      with (- (one_units * (2 * n * 2 ^ 1020))) by ring.
    assert (0 <= one_units * (2 * n * 2 ^ 1020) < one_units * P).
    { split; [apply Z.mul_nonneg_nonneg; lia |].
      apply Z.mul_lt_mono_pos_l; lia. }
    lia. }
  rewrite Hr, HT. ring.
Qed.

(** Below 2^40 the float computation of rule 5 gives the exact ceiling of a
    fifth of the price. *)
Lemma fifth_of_price (c : Z) :
  0 <= c < 100 * 2 ^ 40 ->
  exists k, float_of_decimal false c (-2) = Fin k /\ 0 <= k
            /\ ceil (fmul (Fin k) float_0_2) = Ok ((c + 499) / 500).
Proof.
  intros Hc.
  destruct (price_float c Hc) as [k [s1 [Hk [Hk0 [Hs1 [He1 Hex1]]]]]].
  assert (HE : 0 < 2 ^ 1020) by (apply Z.pow_pos_nonneg; lia).
  assert (HU : 0 < one_units) by (apply Z.pow_pos_nonneg; lia).
  assert (HUE : one_units = 18014398509481984 * 2 ^ 1020).
  { unfold one_units. change 1074 with (54 + 1020).
    rewrite Z.pow_add_r by lia. reflexivity. }
  assert (HS1 : 0 < 2 ^ s1 <= 4398046511104 * 2 ^ 1020).
  { split; [apply Z.pow_pos_nonneg; lia |].
    change 4398046511104 with (2 ^ 42). rewrite <- Z.pow_add_r by lia.
    apply Z.pow_le_mono_r; lia. }
  assert (Hkb : k < 2 ^ 41 * one_units).
  { assert (c * one_units <= (100 * 2 ^ 40 - 1) * one_units)
      by (apply Z.mul_le_mono_nonneg_r; lia).
    change (2 ^ 41) with 2199023255552. change (2 ^ 40) with 1099511627776 in *.
    lia. }
  destruct (fifth_float k ltac:(lia)) as [k' [s2 [Hm [Hs2 [He2 Hex2]]]]].
  assert (HS2 : 0 < 2 ^ s2 <= 1099511627776 * 2 ^ 1020).
  { split; [apply Z.pow_pos_nonneg; lia |].
    change 1099511627776 with (2 ^ 40). rewrite <- Z.pow_add_r by lia.
    apply Z.pow_le_mono_r; lia. }
  exists k. split; [exact Hk |]. split; [exact Hk0 |].
  rewrite Hm. apply ceil_between.
  set (n := (c + 499) / 500).
  pose proof (Z.div_mod (c + 499) 500 ltac:(lia)) as Hdm.
  pose proof (Z.mod_pos_bound (c + 499) 500 ltac:(lia)) as Hmod.
  fold n in Hdm.
  assert (Hn : 500 * (n - 1) < c <= 500 * n) by lia.
  destruct (Z.eq_dec c (500 * n)) as [Heq | Hne].
  - assert (Hn0 : 0 <= n) by lia.
    rewrite (Hex2 n Hn0); [lia |].
    rewrite (Hex1 (5 * n)); [ring | lia].
  - assert (Hb : (n - 1) * one_units < k' < n * one_units); [| lia].
    apply (fifth_bounds (2 ^ 1020) one_units (3602879701896397 * 2 ^ 1020)
             (2 ^ s1) (2 ^ s2) c k k' n); try assumption; try lia.
Qed.

Lemma item_points_exact (points : Z) (item : Item) (cents : Z) :
  money_cents (price item) = Some cents -> cents < 100 * 2 ^ 40 ->
  item_points points item = Ok (points + exact_item_bonus item cents).
Proof.
  intros Hm Hlt.
  pose proof (money_cents_nonneg _ _ Hm) as H0.
  destruct (fifth_of_price cents ltac:(lia)) as [k [Hk [_ Hceil]]].
  unfold item_points, exact_item_bonus.
  rewrite (float_of_str_money _ _ Hm), Hk. unfold bind at 1.
  destruct (len (strip (shortDescription item)) mod 3 =? 0).
  - rewrite Hceil. reflexivity.
  - f_equal. lia.
Qed.

Lemma for_items_exact (l : list Item) :
  List.Forall price_below_2_40 l ->
  exists b, exact_items_bonus l = Some b
            /\ forall points, for_items points l = Ok (points + b).
Proof.
  induction 1 as [| item rest [cents [Hm Hlt]] _ [b [Hb IH]]].
  - exists 0. split; [reflexivity |]. intros points. simpl. f_equal. lia.
  - exists (exact_item_bonus item cents + b). simpl. rewrite Hm, Hb.
    split; [reflexivity |]. intros points.
    rewrite (item_points_exact points item cents Hm Hlt). simpl.
    rewrite IH. f_equal. lia.
Qed.

(** X9: rule 5 loses nothing to floating point.  For a price of [cents]
    cents written as digits, a point and two digits, below 2^40, the code's
    [math.ceil(float(price) * 0.2)] is the exact ceiling of a fifth of the
    price, [(cents + 499) / 500], although neither the price nor 0.2 is
    read exactly; an item adds it when the length of its trimmed description
    is a multiple of three and adds nothing otherwise, and the loop over the
    items adds the sum of these. *)
Theorem item_bonus_is_exact :
  (forall (points : Z) (item : Item) (cents : Z),
      money_cents (price item) = Some cents -> cents < 100 * 2 ^ 40 ->
      item_points points item
      = Ok (points
            + (if len (strip (shortDescription item)) mod 3 =? 0
               then (cents + 499) / 500 else 0)))
  /\ (forall l : list Item,
      List.Forall price_below_2_40 l ->
      exists b, exact_items_bonus l = Some b
                /\ forall points, for_items points l = Ok (points + b)).
Proof.
  split; [exact item_points_exact | exact for_items_exact].
Qed.

Lemma item_bonus_is_exact_witness :
  item_points 0 {| shortDescription := "Emils Cheese Pizza"; price := "12.25" |}
  = Ok (0 + (if len (strip "Emils Cheese Pizza") mod 3 =? 0
             then (1225 + 499) / 500 else 0)).
Proof.
  refine (proj1 item_bonus_is_exact 0
            {| shortDescription := "Emils Cheese Pizza"; price := "12.25" |}
            1225 _ _).
  - reflexivity.
  - reflexivity.
Defined.

(** X10: on a receipt in the formats of the spec (total below 2^47 and
    prices below 2^40, each digits, a point and two digits; a calendar date
    YYYY-MM-DD of a year from 1 on; a time HH:MM), the points computed by the
    code, on floats and with [strptime], are the points of the seven rules in
    exact integer arithmetic on the cents, the day and the hour read off the
    text. *)
Theorem points_by_exact_arithmetic (receipt : Receipt) :
  well_formed receipt ->
  exists n, exact_points receipt = Some n /\ calculate_points receipt = Ok n.
Proof.
  intros [[cents [Hm Hlt]] [Hitems [Hdate [Hyear Htime]]]].
  destruct (for_items_exact _ Hitems) as [b [Hb Hfor]].
  pose proof (money_cents_nonneg _ _ Hm) as H0.
  destruct (decimal_cents_tests cents ltac:(lia)) as [k [Hk [Hk0 [Hint Hq]]]].
  destruct (float_rem_quarter k Hk0) as [m [Hrem Hfeq]].
  unfold exact_points. rewrite Hm, Hb. eexists. split; [reflexivity |].
  rewrite calculate_points_total_rules, points_of_other_rules_sum.
  rewrite (float_of_str_money _ _ Hm), Hk. unfold bind at 1.
  rewrite Hrem. unfold bind at 1.
  rewrite Hfor. unfold bind at 2.
  rewrite (strptime_Ymd_strict _ Hdate Hyear). unfold bind at 2.
  rewrite (strptime_HM_strict _ Htime). unfold bind, afternoon.
  cbn [day hour]. unfold is_integer. rewrite Hfeq.
  rewrite (eqb_0_iff _ _ Hint), (eqb_0_iff _ _ Hq).
  unfold exact_total_bonus. f_equal. lia.
Qed.

Lemma points_by_exact_arithmetic_witness :
  exists n, exact_points target_receipt = Some n
            /\ calculate_points target_receipt = Ok n.
Proof.
  apply (points_by_exact_arithmetic target_receipt).
  split; [exists 3535; split; reflexivity |].
  split; [repeat constructor; eexists; split; reflexivity |].
  split; [reflexivity |]. split; [vm_compute; discriminate | reflexivity].
Defined.

(** ** Why the points computation fails *)

Lemma round_signed_not_nan (neg : bool) (n d : Z) : round_signed neg n d <> NaN.
Proof.
  unfold round_signed, round_units.
  destruct (overflow_units <=? _); discriminate.
Qed.

Lemma dg_strtod_not_nan (s rest : list ascii) :
  dg_strtod s <> Some (NaN, rest).
Proof.
  unfold dg_strtod.
  destruct (parse_sign s) as [neg s1]. destruct (span_digits s1) as [ip s2].
  destruct (match s2 with c :: r => _ | [] => _ end) as [fp s3].
  destruct (ip ++ fp)%list; [discriminate |].
  destruct (parse_exponent s3) as [e s4].
  intros H. inversion H as [[Hx Hrest]].
  unfold float_of_decimal in Hx.
  destruct (0 <=? _); eapply round_signed_not_nan; eassumption.
Qed.

Lemma case_insensitive_match_all (t s rest : list ascii) :
  case_insensitive_match s t = Some rest ->
  exists m, s = (m ++ rest)%list /\ map Py_TOLOWER m = t.
Proof.
  revert s. induction t as [| b t IH]; intros s H.
  - destruct s; simpl in H; inversion H; subst; exists []; split; reflexivity.
  - destruct s as [| a s]; simpl in H; [discriminate |].
    destruct (Ascii.eqb (Py_TOLOWER a) b) eqn:E; [| discriminate].
    apply Ascii.eqb_eq in E. destruct (IH s H) as [m [-> Hm]].
    exists (a :: m). simpl. rewrite E, Hm. split; reflexivity.
Qed.

Lemma parse_nan_chars (s : list ascii) :
  parse_inf_or_nan s = Some (NaN, []) ->
  forallb nan_char s = true /\ (3 <= length s)%nat.
Proof.
  unfold parse_inf_or_nan.
  assert (Hsign : forall neg s1, parse_sign s = (neg, s1) ->
             s = s1 \/ exists c, s = c :: s1 /\ nan_char c = true).
  { intros neg s1. unfold parse_sign. destruct s as [| c r].
    - intros H; inversion H; subst; left; reflexivity.
    - destruct (Ascii.eqb c "-") eqn:E1.
      + intros H; inversion H; subst. right. exists c. split; [reflexivity |].
        apply Ascii.eqb_eq in E1. subst c. reflexivity.
      + destruct (Ascii.eqb c "+") eqn:E2; intros H; inversion H; subst;
          [| left; reflexivity].
        right. exists c. split; [reflexivity |].
        apply Ascii.eqb_eq in E2. subst c. reflexivity. }
  destruct (parse_sign s) as [neg s1]. specialize (Hsign neg s1 eq_refl).
  destruct (case_insensitive_match s1 (chars "inf")) as [s2 |].
  { destruct (case_insensitive_match s2 (chars "inity")); discriminate. }
  destruct (case_insensitive_match s1 (chars "nan")) as [s2 |] eqn:Hnan;
    [| discriminate].
  intros H. inversion H; subst s2.
  apply case_insensitive_match_all in Hnan. destruct Hnan as [m [-> Hm]].
  rewrite app_nil_r in *.
  destruct m as [| a [| b [| c [| x m]]]]; try discriminate.
  simpl in Hm. injection Hm as Ha Hb Hc.
  assert (Hall : forallb nan_char [a; b; c] = true).
  { unfold nan_char. cbn [forallb]. rewrite Ha, Hb, Hc. reflexivity. }
  destruct Hsign as [-> | [c0 [-> Hc0]]].
  - split; [exact Hall | simpl; lia].
  - split; [simpl; rewrite Hc0; exact Hall | simpl; lia].
Qed.

Lemma nan_char_not_point_or_mark (c : ascii) :
  nan_char c = true -> point_or_mark c = false.
Proof.
  destruct c as [[] [] [] [] [] [] [] []]; vm_compute; intros H;
    try discriminate H; reflexivity.
Qed.

Lemma point_or_mark_facts (c : ascii) :
  point_or_mark c = true ->
  Py_ISSPACE c = false /\ is_underscore c = false /\ (ord c <? 127) = true.
Proof.
  unfold point_or_mark. intros H. apply orb_true_iff in H.
  destruct H as [H | H]; apply Ascii.eqb_eq in H; subst c; repeat split.
Qed.

Lemma lstrip_c_keeps (l : list ascii) :
  existsb point_or_mark l = true -> existsb point_or_mark (lstrip_c l) = true.
Proof.
  induction l as [| c l IH]; simpl; intros H; [discriminate |].
  destruct (Py_ISSPACE c) eqn:Hs; [| exact H].
  apply orb_true_iff in H. destruct H as [H | H]; [| exact (IH H)].
  apply point_or_mark_facts in H. destruct H as [H _]. congruence.
Qed.

Lemma existsb_rev {A : Type} (f : A -> bool) (l : list A) :
  existsb f (rev l) = existsb f l.
Proof.
  induction l as [| a l IH]; simpl; [reflexivity |].
  rewrite existsb_app, IH. simpl. rewrite orb_false_r. apply orb_comm.
Qed.

Lemma lstrip_c_length (l : list ascii) : (length (lstrip_c l) <= length l)%nat.
Proof.
  induction l as [| c l IH]; simpl; [lia |].
  destruct (Py_ISSPACE c); simpl; lia.
Qed.

Lemma drop_underscores_keeps (s t : list ascii) (prev : ascii) :
  drop_underscores prev s = Some t ->
  (existsb point_or_mark s = true -> existsb point_or_mark t = true)
  /\ (length t <= length s)%nat.
Proof.
  revert prev t. induction s as [| c s IH]; intros prev t; simpl.
  - destruct (is_underscore prev); intros H; inversion H. simpl. auto.
  - destruct (is_underscore c) eqn:Hu.
    + destruct (is_digit prev); [| discriminate]. intros H.
      destruct (IH _ _ H) as [H1 H2]. split; [| lia].
      intros Hex. apply orb_true_iff in Hex. destruct Hex as [Hex | Hex].
      * apply point_or_mark_facts in Hex. destruct Hex as [_ [Hex _]]. congruence.
      * exact (H1 Hex).
    + destruct (is_underscore prev && negb (is_digit c)); [discriminate |].
      destruct (drop_underscores c s) as [t' |] eqn:Ht; simpl; [| discriminate].
      intros H. inversion H; subst t. destruct (IH _ _ Ht) as [H1 H2].
      split; [| simpl; lia].
      simpl. intros Hex. apply orb_true_iff in Hex. apply orb_true_iff.
      destruct Hex as [Hex | Hex]; [left; exact Hex | right; exact (H1 Hex)].
Qed.

Lemma transform_keeps (s : list ascii) :
  (existsb point_or_mark s = true ->
   existsb point_or_mark (transform_decimal_and_space s) = true)
  /\ (length (transform_decimal_and_space s) <= length s)%nat.
Proof.
  induction s as [| c s [IH1 IH2]]; simpl; [auto |].
  destruct (ord c <? 127) eqn:Hc.
  - split; [| simpl; lia]. simpl. intros H.
    apply orb_true_iff in H. apply orb_true_iff.
    destruct H as [H | H]; [left; exact H | right; exact (IH1 H)].
  - destruct (isspace c).
    + split; [| simpl; lia]. simpl. intros H.
      apply orb_true_iff in H. destruct H as [H | H]; [| exact (IH1 H)].
      apply point_or_mark_facts in H. destruct H as [_ [_ H]]. congruence.
    + split; [intros _; reflexivity | simpl; lia].
Qed.

Lemma length_string_of_list (l : list ascii) :
  String.length (string_of_list_ascii l) = length l.
Proof. induction l as [| c l IH]; simpl; [reflexivity | rewrite IH; reflexivity]. Qed.

(** The text of a nan has no decimal point and at least three characters. *)
Lemma nan_text (s : string) :
  float_of_str s = Ok NaN ->
  existsb point_or_mark (chars s) = false /\ (3 <= length (chars s))%nat.
Proof.
  unfold float_of_str.
  destruct (without_underscores (to_ascii_text (chars s))) as [t |] eqn:Ht;
    [| discriminate].
  destruct (rev (lstrip_c (rev (lstrip_c t)))) as [| a u] eqn:Hu; [discriminate |].
  unfold string_to_double.
  destruct (dg_strtod (a :: u)) as [[x rest] |] eqn:Hd.
  { destruct rest; [| discriminate]. intros H; inversion H; subst.
    exfalso. eapply dg_strtod_not_nan; eassumption. }
  destruct (parse_inf_or_nan (a :: u)) as [[x rest] |] eqn:Hp; [| discriminate].
  destruct rest; [| discriminate]. intros H; inversion H; subst x.
  apply parse_nan_chars in Hp. destruct Hp as [Hall Hlen].
  rewrite <- Hu in Hall, Hlen.
  (* the text read is a piece of the text given *)
  assert (Hlen_t : (length (rev (lstrip_c (rev (lstrip_c t)))) <= length t)%nat).
  { rewrite length_rev.
    eapply Nat.le_trans; [apply lstrip_c_length |].
    rewrite length_rev. apply lstrip_c_length. }
  assert (Hkeep_t : existsb point_or_mark t = true ->
                    existsb point_or_mark (rev (lstrip_c (rev (lstrip_c t)))) = true).
  { intros Hex. rewrite existsb_rev. apply lstrip_c_keeps.
    rewrite existsb_rev. apply lstrip_c_keeps. exact Hex. }
  assert (Hno : existsb point_or_mark (rev (lstrip_c (rev (lstrip_c t)))) = false).
  { apply not_true_is_false. intros Hex. apply existsb_exists in Hex.
    destruct Hex as [c [Hin Hc]]. rewrite List.forallb_forall in Hall.
    apply Hall, nan_char_not_point_or_mark in Hin. congruence. }
  assert (Ha : (existsb point_or_mark (to_ascii_text (chars s)) = true ->
                existsb point_or_mark t = true)
               /\ (length t <= length (to_ascii_text (chars s)))%nat).
  { unfold without_underscores in Ht.
    destruct (existsb is_underscore (to_ascii_text (chars s))).
    - eapply drop_underscores_keeps; eassumption.
    - inversion Ht; subst. auto. }
  assert (Hs : (existsb point_or_mark (chars s) = true ->
                existsb point_or_mark (to_ascii_text (chars s)) = true)
               /\ (length (to_ascii_text (chars s)) <= length (chars s))%nat).
  { unfold to_ascii_text. destruct (forallb _ (chars s)); [auto |].
    apply transform_keeps. }
  split; [| lia].
  apply not_true_is_false. intros Hex.
  rewrite (Hkeep_t (proj1 Ha (proj1 Hs Hex))) in Hno. discriminate.
Qed.

Lemma validated_price_not_nan (s : string) :
  validate_price s = Ok s -> float_of_str s <> Ok NaN.
Proof.
  intros Hv Hnan.
  destruct (validate_price_cases s) as [[_ [x [Hx [_ Hlen]]]] | [msg Hm]];
    [| congruence].
  apply nan_text in Hnan. destruct Hnan as [Hno Hlen3].
  assert (Hsplit : split_chars "." (chars s) = [chars s]).
  { apply split_chars_no_sep. apply List.forallb_forall. intros c Hin.
    apply negb_true_iff. apply not_true_is_false. intros Hc.
    assert (existsb point_or_mark (chars s) = true); [| congruence].
    apply existsb_exists. exists c. split; [exact Hin |].
    unfold point_or_mark. rewrite Hc. reflexivity. }
  unfold split, last_item, len in Hlen. rewrite Hsplit in Hlen. simpl in Hlen.
  rewrite length_string_of_list in Hlen. lia.
Qed.

Lemma item_points_failure (points : Z) (item : Item) :
  Item_validate item = Ok item ->
  (exists q, item_points points item = Ok q)
  \/ (item_points points item = Raise ceil_overflow /\ infinite_bonus_item item).
Proof.
  intros Hv.
  destruct (Item_validate_cases item) as [[_ [_ Hp]] | Hraise]; [| congruence].
  pose proof (validated_price_not_nan _ Hp) as Hnan.
  destruct (validate_price_cases (price item)) as [[_ [x [Hx [Hneg _]]]] | [msg Hmsg]];
    [| congruence].
  unfold item_points, infinite_bonus_item. rewrite Hx. unfold bind.
  destruct (Z.eqb_spec (len (strip (shortDescription item)) mod 3) 0) as [E | E];
    [| left; eauto].
  destruct x as [| neg | k].
  - congruence.
  - destruct neg; [discriminate Hneg |].
    right. rewrite float_0_2_eq. split; [reflexivity | split; [reflexivity | exact E]].
  - destruct (ceil (fmul (Fin k) float_0_2)) as [c | e] eqn:Hc; [left; eauto |].
    exfalso. apply float_of_str_fin in Hx as Hbound.
    unfold flt, float_0 in Hneg. apply Z.ltb_ge in Hneg.
    destruct (fmul_0_2_finite k ltac:(lia)) as [k' [Hk' _]].
    rewrite Hk' in Hc. discriminate Hc.
Qed.

Lemma for_items_failure (l : list Item) (e : exn) :
  List.Forall (fun item => Item_validate item = Ok item) l ->
  forall points, for_items points l = Raise e ->
  e = ceil_overflow /\ exists item, In item l /\ infinite_bonus_item item.
Proof.
  induction l as [| item rest IH]; intros Hv points H; [discriminate H |].
  inversion Hv; subst. simpl in H.
  destruct (item_points_failure points item ltac:(assumption))
    as [[q Hq] | [Hq Hinf]]; rewrite Hq in H; simpl in H.
  - destruct (IH ltac:(assumption) q H) as [He [i [Hin Hi]]].
    split; [exact He |]. exists i. split; [right; exact Hin | exact Hi].
  - inversion H. split; [reflexivity |]. exists item. split; [left; reflexivity | exact Hinf].
Qed.

Lemma scoring_failure_causes (receipt : Receipt) (e : exn) :
  Receipt_validate receipt = Ok receipt ->
  calculate_points receipt = Raise e ->
  (e = ceil_overflow
   /\ exists item, In item (items receipt) /\ infinite_bonus_item item)
  \/ strptime_Ymd (purchaseDate receipt) = Raise e
  \/ strptime_HM (purchaseTime receipt) = Raise e.
Proof.
  intros Hv H.
  destruct (Receipt_validate_cases receipt) as [[_ [_ [Hi Htot]]] | Hraise];
    [| congruence].
  unfold validate_total in Htot.
  destruct (validate_price_cases (total receipt)) as [[_ [x [Hx _]]] | [msg Hmsg]];
    [| congruence].
  destruct (float_rem_0_25_ok x) as [m Hm].
  unfold calculate_points in H. rewrite Hx in H. unfold bind in H.
  rewrite Hm in H.
  destruct (for_items _ (items receipt)) as [p5 | e5] eqn:H5.
  - destruct (strptime_Ymd (purchaseDate receipt)) as [d | ed];
      [| right; left; inversion H; reflexivity].
    destruct (strptime_HM (purchaseTime receipt)) as [t | et];
      [discriminate H | right; right; inversion H; reflexivity].
  - inversion H; subst e5. left. eapply for_items_failure; eassumption.
Qed.

(** X11: why fetching points fails.  On a store whose receipts all passed the
    submission checks, a fetch that does not return points either answers
    404 because the identifier is not stored, or answers 500 for a stored
    receipt, and then the cause is one of three: an item whose price reads
    as infinity and whose trimmed description has a length divisible by
    three (the error is the overflow of [math.ceil]), the purchase date, or
    the purchase time (the error is the one [strptime] raised).  The
    retailer, the total and the finite prices of a stored receipt never make
    the computation fail. *)
Theorem fetch_failure_causes (id : string) (db : gmap string Receipt) (e : exn) :
  store_ok db ->
  fst (get_receipt_points id db) = Raise e ->
  (e = not_found /\ db !! id = None)
  \/ (status_of e = 500
      /\ exists r, db !! id = Some r
           /\ ((e = ceil_overflow
                /\ exists item, In item (items r) /\ infinite_bonus_item item)
               \/ strptime_Ymd (purchaseDate r) = Raise e
               \/ strptime_HM (purchaseTime r) = Raise e)).
Proof.
  intros Hok. unfold get_receipt_points.
  destruct (db !! id) as [r |] eqn:Hlook; simpl; intros H.
  - right. split.
    + apply builtin_error_status. eapply calculate_points_raises; eassumption.
    + exists r. split; [reflexivity |].
      apply scoring_failure_causes; [| exact H].
      exact (proj1 (Hok id r Hlook)).
  - left. inversion H. split; reflexivity.
Qed.

Lemma fetch_failure_causes_witness :
  (ValueError "day is out of range for month" = not_found
   /\ (<["a" := february_30_receipt]> ∅ : gmap string Receipt) !! "a" = None)
  \/ (status_of (ValueError "day is out of range for month") = 500
      /\ exists r,
           (<["a" := february_30_receipt]> ∅ : gmap string Receipt) !! "a" = Some r
           /\ ((ValueError "day is out of range for month" = ceil_overflow
                /\ exists item, In item (items r) /\ infinite_bonus_item item)
               \/ strptime_Ymd (purchaseDate r)
                  = Raise (ValueError "day is out of range for month")
               \/ strptime_HM (purchaseTime r)
                  = Raise (ValueError "day is out of range for month"))).
Proof.
  apply (fetch_failure_causes "a" (<["a" := february_30_receipt]> ∅)).
  - intros id r H. apply lookup_insert_Some in H.
    destruct H as [[_ <-] | [_ H]]; [| rewrite lookup_empty in H; discriminate H].
    split; [vm_compute; reflexivity | repeat split; discriminate].
  - vm_compute. reflexivity.
Defined.
